(** * gmail_mcp: the tool dispatch layer, embedded and verified

    A shallow embedding of [gmail_mcp/dependencies.py],
    [gmail_mcp/tools/management.py] and [gmail_mcp/tools/advanced.py].

    Python values are modelled as follows.
    - [str] is [string]; every [ascii] stands for one code point in 0..255.
    - [Optional[T]] is [option T], [None] being [None].
    - a service call is a function of an abstract world state which either
      raises (left, carrying [str(e)]) or returns (right).
    - a handler threads a state made of the world, the trace of service
      calls and the lines written through [logger.error]. *)

From Stdlib Require Import List String Ascii Bool ZArith.
From Stdlib Require Import Numbers.DecimalString.
Import ListNotations.
Open Scope string_scope.

(** ** Python string built-ins used by the source *)

Module PyStr.

(** [str.isspace] on one code point, restricted to 0..255: the cases of
    CPython's [_PyUnicode_IsWhitespace] that lie in that range. *)
Definition is_space (c : ascii) : bool :=
  let n := nat_of_ascii c in
  (((9 <=? n) && (n <=? 13)) || ((28 <=? n) && (n <=? 32))
   || (n =? 133) || (n =? 160))%nat.

Fixpoint all_space (s : string) : bool :=
  match s with
  | EmptyString => true
  | String c s' => is_space c && all_space s'
  end.

Fixpoint lstrip (s : string) : string :=
  match s with
  | EmptyString => EmptyString
  | String c s' => if is_space c then lstrip s' else s
  end.

Fixpoint rstrip (s : string) : string :=
  match s with
  | EmptyString => EmptyString
  | String c s' =>
      match rstrip s' with
      | EmptyString => if is_space c then EmptyString else String c EmptyString
      | r => String c r
      end
  end.

(** [s.strip()] *)
Definition strip (s : string) : string := rstrip (lstrip s).

(** [s.split(sep)] for a one-character separator: never returns the empty
    list, ["".split(",")] is [[""]]. *)
Fixpoint split (sep : ascii) (s : string) : list string :=
  match s with
  | EmptyString => [EmptyString]
  | String c s' =>
      if Ascii.eqb c sep then EmptyString :: split sep s'
      else match split sep s' with
           | seg :: segs => String c seg :: segs
           | [] => [String c EmptyString]
           end
  end.

(** [sep.join(l)] *)
Definition join (sep : string) (l : list string) : string := String.concat sep l.

(** [s.startswith(p)] *)
Definition startswith (s p : string) : bool := String.prefix p s.

(** [s.replace(old, new)] for a non-empty [old]: every non-overlapping
    occurrence, scanning from the left. [skip] counts the characters of an
    occurrence already replaced that are still to be passed over. *)
Fixpoint replace_from (old new : string) (skip : nat) (s : string) : string :=
  match s with
  | EmptyString => EmptyString
  | String c s' =>
      match skip with
      | S k => replace_from old new k s'
      | O =>
          if String.prefix old s
          then new ++ replace_from old new (String.length old - 1) s'
          else String c (replace_from old new 0 s')
      end
  end.

(** With an empty [old] Python inserts [new] around every character. *)
Fixpoint intersperse (new s : string) : string :=
  match s with
  | EmptyString => new
  | String c s' => new ++ String c (intersperse new s')
  end.

Definition replace (s old new : string) : string :=
  match old with
  | EmptyString => intersperse new s
  | _ => replace_from old new 0 s
  end.

(** [p in s] *)
Fixpoint contains (p s : string) : bool :=
  String.prefix p s
  || match s with
     | EmptyString => false
     | String _ s' => contains p s'
     end.

(** Truth value of an [Optional[str]]: [None] and [""] are false. *)
Definition truthy (o : option string) : bool :=
  match o with
  | Some (String _ _) => true
  | _ => false
  end.

(** Truth value of a [str]. *)
Definition nonempty (s : string) : bool :=
  match s with
  | EmptyString => false
  | String _ _ => true
  end.

(** Truth value of an [Optional[List[str]]]. *)
Definition truthy_list (o : option (list string)) : bool :=
  match o with
  | Some (_ :: _) => true
  | _ => false
  end.

(** [str(n)] for an [int]. *)
Definition str_of_Z (z : Z) : string := NilZero.string_of_int (Z.to_int z).
Definition str_of_nat (n : nat) : string := NilZero.string_of_uint (Nat.to_uint n).

End PyStr.

(** ** dependencies.py *)

(** [fastapi.HTTPException(status_code, detail)] *)
Record HTTPException := mkHTTPException {
  status_code : Z;
  detail : string
}.

(** What the handlers read of the MCP context: [ctx.request_context.request]
    and, of the request, [headers.get(name)]. *)
Record Request := mkRequest {
  headers_get : string -> option string
}.

Record RequestContext := mkRequestContext {
  request : Request
}.

Record Context := mkContext {
  request_context : option RequestContext
}.

Definition get_access_token (ctx : option Context) : HTTPException + string :=
  match ctx with
  | None => inl (mkHTTPException 401%Z "No request context available")
  | Some c =>
      match request_context c with
      | None => inl (mkHTTPException 401%Z "No request context available")
      | Some rc =>
          let auth_header := headers_get (request rc) "Authorization" in
          match auth_header with
          | None => inl (mkHTTPException 401%Z "No valid access token provided")
          | Some h =>
              if negb (PyStr.nonempty h) || negb (PyStr.startswith h "Bearer ")
              then inl (mkHTTPException 401%Z "No valid access token provided")
              else inr (PyStr.replace h "Bearer " "")
          end
      end
  end.

Definition parse_comma_separated_list (value : option string) : option (list string) :=
  match value with
  | None => None
  | Some v =>
      if String.eqb (PyStr.strip v) ""
      then None
      else Some (map PyStr.strip
                   (filter (fun item => PyStr.nonempty (PyStr.strip item))
                      (PyStr.split "," v)))
  end.

(** ** JSON values handed to [json.dumps] *)

(** A Python [dict] literal keeps its keys in insertion order: [JObj] is an
    association list. *)
#[local] Set Warnings "-register-all".
Inductive json : Type :=
| JNull
| JBool (b : bool)
| JInt (n : Z)
| JStr (s : string)
| JList (items : list json)
| JObj (fields : list (string * json)).

(** The call [json.dumps(payload, indent=indent)] whose value a handler
    returns. [default=str] only matters for values the encoder does not know;
    the results of [model_dump()] are taken after that conversion. *)
Record JsonText := dumps {
  payload : json;
  indent : option nat
}.

Module Json.

Definition field (k : string) (j : json) : option json :=
  match j with
  | JObj fs => option_map snd (find (fun kv => String.eqb (fst kv) k) fs)
  | _ => None
  end.

Definition has_key (k : string) (j : json) : bool :=
  match field k j with
  | Some _ => true
  | None => false
  end.

Definition of_option_str (o : option string) : json :=
  match o with
  | Some s => JStr s
  | None => JNull
  end.

Definition of_option_int (o : option Z) : json :=
  match o with
  | Some n => JInt n
  | None => JNull
  end.

Definition of_str_list (l : list string) : json := JList (map JStr l).

Definition of_option_str_list (o : option (list string)) : json :=
  match o with
  | Some l => of_str_list l
  | None => JNull
  end.

(** The text the encoder writes ([ensure_ascii] is on by default). *)
Definition hex_digit (n : nat) : ascii :=
  if (n <? 10)%nat then ascii_of_nat (48 + n) else ascii_of_nat (87 + n).

Definition escape_char (c : ascii) : string :=
  let n := nat_of_ascii c in
  if (n =? 34)%nat then String "\" (String c EmptyString)
  else if (n =? 92)%nat then "\\"
  else if (n =? 8)%nat then "\b"
  else if (n =? 12)%nat then "\f"
  else if (n =? 10)%nat then "\n"
  else if (n =? 13)%nat then "\r"
  else if (n =? 9)%nat then "\t"
  else if ((32 <=? n) && (n <=? 126))%nat then String c EmptyString
  else "\u00" ++ String (hex_digit (n / 16)) (String (hex_digit (n mod 16)) EmptyString).

Fixpoint escape (s : string) : string :=
  match s with
  | EmptyString => EmptyString
  | String c s' => escape_char c ++ escape s'
  end.

Definition quote (s : string) : string :=
  String "034" (escape s ++ String "034" EmptyString).

Fixpoint spaces (n : nat) : string :=
  match n with
  | O => EmptyString
  | S k => String " " (spaces k)
  end.

Definition newline : string := String "010" EmptyString.

(** Line break and indentation in front of an item at nesting [level]. *)
Definition break (ind : option nat) (level : nat) : string :=
  match ind with
  | Some w => newline ++ spaces (w * level)
  | None => EmptyString
  end.

Definition item_separator (ind : option nat) (level : nat) : string :=
  match ind with
  | Some _ => "," ++ break ind level
  | None => ", "
  end.

Fixpoint encode (ind : option nat) (level : nat) (j : json) : string :=
  match j with
  | JNull => "null"
  | JBool true => "true"
  | JBool false => "false"
  | JInt n => PyStr.str_of_Z n
  | JStr s => quote s
  | JList [] => "[]"
  | JList items =>
      "[" ++ break ind (S level)
          ++ String.concat (item_separator ind (S level))
               (map (fun x => encode ind (S level) x) items)
          ++ break ind level ++ "]"
  | JObj [] => "{}"
  | JObj fields =>
      "{" ++ break ind (S level)
          ++ String.concat (item_separator ind (S level))
               (map (fun kv => quote (fst kv) ++ ": " ++ encode ind (S level) (snd kv)) fields)
          ++ break ind level ++ "}"
  end.

Definition text (t : JsonText) : string := encode (indent t) 0 (payload t).

End Json.

(** ** gmail_mcp.models and gmail_mcp.auth, as the handlers use them

    Request models are the keyword arguments a handler passes to the
    constructor; a keyword the handler leaves out is [Omitted]. Response
    models are what a handler reads of them. *)

Inductive kwarg (A : Type) : Type :=
| Omitted
| Given (a : A).
Arguments Omitted {A}.
Arguments Given {A} a.

Inductive MessageFormat : Type := MINIMAL | FULL | METADATA | RAW | COMPACT.

Module TokenInfo.
Record t := mk {
  access_token : string;
  email : string;
  scope : string
}.
End TokenInfo.

Module SendEmailRequest.
Record t := mk {
  to : option (list string);
  subject : string;
  body_text : option string;
  body_html : option string;
  cc : kwarg (option (list string));
  bcc : kwarg (option (list string));
  attachments : kwarg (option (list string));
  thread_id : kwarg (option string);
  in_reply_to : kwarg (option string)
}.
End SendEmailRequest.

Module ModifyLabelsRequest.
Record t := mk {
  add_label_ids : kwarg (option (list string));
  remove_label_ids : kwarg (option (list string))
}.
End ModifyLabelsRequest.

Module CreateLabelRequest.
Record t := mk {
  name : string;
  message_list_visibility : string;
  label_list_visibility : string
}.
End CreateLabelRequest.

Module ForwardEmailRequest.
Record t := mk {
  to : option (list string);
  cc : option (list string);
  bcc : option (list string);
  additional_message : option string
}.
End ForwardEmailRequest.

Module CreateDraftRequest.
Record t := mk {
  to : option (list string);
  subject : string;
  body_text : option string;
  body_html : option string;
  cc : option (list string);
  bcc : option (list string);
  thread_id : option string;
  in_reply_to : option string
}.
End CreateDraftRequest.

Module ThreadListRequest.
Record t := mk {
  max_results : Z;
  label_ids : option (list string);
  q : option string;
  include_spam_trash : bool;
  page_token : option string;
  after : option string;
  before : option string
}.
End ThreadListRequest.

Module DraftListRequest.
Record t := mk {
  max_results : Z;
  page_token : option string;
  message_format : MessageFormat;
  q : option string;
  after : option string;
  before : option string
}.
End DraftListRequest.

(** An element of [message.attachments]. *)
Module AttachmentInfo.
Record t := mk { model_dump : json }.
End AttachmentInfo.

(** The value of [get_attachment]. *)
Module Attachment.
Record t := mk { model_dump : json }.
End Attachment.

Module Message.
Record t := mk {
  sender : option string;
  recipient : option string;
  subject : option string;
  thread_id : option string;
  label_ids : list string;
  attachments : list AttachmentInfo.t
}.
End Message.

Module Label.
Record t := mk { model_dump : json }.
End Label.

Module Thread.
Record t := mk {
  messages : list Message.t;
  model_dump : json
}.
End Thread.

(** An element of [response.threads]. *)
Module ThreadSummary.
Record t := mk { model_dump : json }.
End ThreadSummary.

Module ThreadListResponse.
Record t := mk {
  threads : list ThreadSummary.t;
  next_page_token : option string;
  result_size_estimate : option Z
}.
End ThreadListResponse.

Module Draft.
Record t := mk { model_dump : json }.
End Draft.

Module DraftListResponse.
Record t := mk {
  drafts : list Draft.t;
  next_page_token : option string;
  result_size_estimate : option Z
}.
End DraftListResponse.

(** Validation run by the constructors of the request models: [None] when
    the object is built, [Some msg] when the constructor raises, [msg] being
    [str(e)]. *)
Record Validation := mkValidation {
  check_SendEmailRequest : SendEmailRequest.t -> option string;
  check_ModifyLabelsRequest : ModifyLabelsRequest.t -> option string;
  check_CreateLabelRequest : CreateLabelRequest.t -> option string;
  check_ForwardEmailRequest : ForwardEmailRequest.t -> option string;
  check_CreateDraftRequest : CreateDraftRequest.t -> option string;
  check_ThreadListRequest : ThreadListRequest.t -> option string;
  check_DraftListRequest : DraftListRequest.t -> option string
}.

(** ** The Gmail service client *)

(** [str(e)] of an exception caught by [except Exception as e]. *)
Definition exn := string.

(** One call on the service client, with its arguments. *)
Inductive Call : Type :=
| CallSendMessage (request : SendEmailRequest.t)
| CallGetMessage (message_id : string)
| CallModifyMessageLabels (message_id : string) (request : ModifyLabelsRequest.t)
| CallDeleteMessage (message_id : string)
| CallCreateLabel (request : CreateLabelRequest.t)
| CallForwardMessage (message_id : string) (request : ForwardEmailRequest.t)
| CallListThreads (request : ThreadListRequest.t)
| CallGetThread (thread_id : string) (format : MessageFormat)
| CallCreateDraft (request : CreateDraftRequest.t)
| CallListDrafts (request : DraftListRequest.t)
| CallGetDraft (draft_id : string) (format : MessageFormat)
| CallSendDraft (draft_id : string)
| CallGetAttachment (message_id attachment_id : string).

(** A call in the trace, with the exception it raised if it did. *)
Record CallEvent := mkCallEvent {
  call : Call;
  raised : option exn
}.

(** What a handler returns to the MCP server. *)
Inductive Response : Type :=
| Return (text : JsonText)
| Raise (e : HTTPException).

Section Service.

Variable World : Type.

(** A method of the client: run on a world, it raises or returns, and
    leaves a world. *)
Definition Method (A : Type) : Type := World -> (exn + A) * World.

Record GmailService := mkGmailService {
  send_message : SendEmailRequest.t -> Method string;
  get_message : string -> Method Message.t;
  modify_message_labels : string -> ModifyLabelsRequest.t -> Method Message.t;
  delete_message : string -> Method bool;
  create_label : CreateLabelRequest.t -> Method Label.t;
  forward_message : string -> ForwardEmailRequest.t -> Method string;
  list_threads : ThreadListRequest.t -> Method ThreadListResponse.t;
  get_thread : string -> MessageFormat -> Method Thread.t;
  create_draft : CreateDraftRequest.t -> Method string;
  list_drafts : DraftListRequest.t -> Method DraftListResponse.t;
  get_draft : string -> MessageFormat -> Method Draft.t;
  send_draft : string -> Method string;
  get_attachment : string -> string -> Method Attachment.t
}.

(** The state a handler runs in. *)
Record State := mkState {
  world : World;
  calls : list CallEvent;
  logs : list string
}.

(** The body of a [try]: it raises or yields a value. *)
Definition Body (A : Type) : Type := State -> (exn + A) * State.

Definition ret {A : Type} (a : A) : Body A := fun st => (inr a, st).

Definition bind {A B : Type} (m : Body A) (k : A -> Body B) : Body B :=
  fun st =>
    match m st with
    | (inl e, st') => (inl e, st')
    | (inr a, st') => k a st'
    end.

(** [await gmail_service.method(...)], recorded in the trace. *)
Definition await {A : Type} (c : Call) (m : Method A) : Body A :=
  fun st =>
    let (r, w) := m (world st) in
    let ev := mkCallEvent c (match r with inl e => Some e | inr _ => None end) in
    (r, mkState w (calls st ++ [ev]) (logs st)).

(** Building a request model from keyword arguments: the constructor
    validates and may raise. *)
Definition construct {R : Type} (check : R -> option string) (r : R) : Body R :=
  fun st =>
    match check r with
    | Some e => (inl e, st)
    | None => (inr r, st)
    end.

Definition Handler : Type := State -> Response * State.

(** [try: body except Exception as e: on_exception e] *)
Definition try_except (body : Body JsonText) (on_exception : exn -> Handler) : Handler :=
  fun st =>
    match body st with
    | (inr text, st') => (Return text, st')
    | (inl e, st') => on_exception e st'
    end.

(** [logger.error(msg)] followed by [return] or [raise]. *)
Definition logger_error (msg : string) (r : Response) : Handler :=
  fun st => (r, mkState (world st) (calls st) (logs st ++ [msg])).

End Service.

Arguments mkState {World}.
Arguments world {World}.
Arguments calls {World}.
Arguments logs {World}.
Arguments ret {World A}.
Arguments bind {World A B}.
Arguments await {World A}.
Arguments construct {World R}.
Arguments try_except {World}.
Arguments logger_error {World}.

Notation "x <- m ;; k" := (bind m (fun x => k))
  (at level 61, m at next level, right associativity).

(** ** The tool handlers *)

Section Tools.

Variable World : Type.

(** Validation of the request models. *)
Variable V : Validation.

(** The constructor of the client: [GmailService(token_info=...)]. *)
Variable new_GmailService : TokenInfo.t -> GmailService World.

Definition get_gmail_service (access_token : string) : GmailService World :=
  let token_info := TokenInfo.mk access_token "" "" in
  new_GmailService token_info.

(** The two lines every handler starts with, outside its [try]:
    [get_access_token] raises through the handler. *)
Definition authorized (ctx : option Context)
    (k : GmailService World -> Handler World) : Handler World :=
  fun st =>
    match get_access_token ctx with
    | inl e => (Raise e, st)
    | inr access_token => k (get_gmail_service access_token) st
    end.

Definition missing_body : JsonText :=
  dumps (JObj [("error", JStr "Either body_text or body_html must be provided")]) None.

(** The [except] branch shared by the handlers of this shape:
    [{"error": str(e), "success": False}], indent 2. *)
Definition error_envelope (e : exn) : JsonText :=
  dumps (JObj [("error", JStr e); ("success", JBool false)]) (Some 2).

(** [', '.join(l) if l else fallback] *)
Definition join_or (l : option (list string)) (fallback : string) : string :=
  match l with
  | Some (x :: xs) => PyStr.join ", " (x :: xs)
  | _ => fallback
  end.

(** *** management.py *)

Definition gmail_send_email (ctx : option Context) (to subject : string)
    (body_text body_html cc bcc attachments : option string) : Handler World :=
  authorized ctx (fun gmail_service =>
    try_except
      (if negb (PyStr.truthy body_text) && negb (PyStr.truthy body_html)
       then ret missing_body
       else
         let to_list := parse_comma_separated_list (Some to) in
         let cc_list := parse_comma_separated_list cc in
         let bcc_list := parse_comma_separated_list bcc in
         let attachments_list := parse_comma_separated_list attachments in
         request <- construct (check_SendEmailRequest V)
           (SendEmailRequest.mk to_list subject body_text body_html
              (Given cc_list) (Given bcc_list) (Given attachments_list)
              Omitted Omitted) ;;
         message_id <- await (CallSendMessage request)
                         (send_message _ gmail_service request) ;;
         ret (dumps (JObj [("success", JBool true);
                           ("message_id", JStr message_id);
                           ("message", JStr ("Email sent successfully to "
                                             ++ join_or to_list "recipients"))])
                (Some 2)))
      (fun e =>
         logger_error ("Error sending email: " ++ e)
           (Raise (mkHTTPException 500%Z ("Failed to send email: " ++ e))))).

Definition gmail_reply_to_email (ctx : option Context) (message_id : string)
    (body_text body_html : option string) (reply_all : bool) : Handler World :=
  authorized ctx (fun gmail_service =>
    try_except
      (if negb (PyStr.truthy body_text) && negb (PyStr.truthy body_html)
       then ret missing_body
       else
         original_message <- await (CallGetMessage message_id)
                               (get_message _ gmail_service message_id) ;;
         let to_addresses :=
           match Message.sender original_message with
           | Some (String c s) => [String c s]
           | _ => []
           end in
         (* the reply-all branch is a [pass] *)
         _ <- (if reply_all && PyStr.truthy (Message.recipient original_message)
               then ret tt else ret tt) ;;
         let subject := match Message.subject original_message with
                        | Some (String c s) => String c s
                        | _ => EmptyString
                        end in
         let subject := if negb (PyStr.startswith subject "Re:")
                        then "Re: " ++ subject else subject in
         request <- construct (check_SendEmailRequest V)
           (SendEmailRequest.mk (Some to_addresses) subject body_text body_html
              Omitted Omitted Omitted
              (Given (Message.thread_id original_message))
              (Given (Some message_id))) ;;
         reply_message_id <- await (CallSendMessage request)
                               (send_message _ gmail_service request) ;;
         ret (dumps (JObj [("success", JBool true);
                           ("reply_message_id", JStr reply_message_id);
                           ("original_message_id", JStr message_id);
                           ("message", JStr "Reply sent successfully")])
                (Some 2)))
      (fun e =>
         logger_error ("Error in reply_to_email: " ++ e)
           (Return (error_envelope e)))).

Definition gmail_mark_as_read (ctx : option Context) (message_id : string) : Handler World :=
  authorized ctx (fun gmail_service =>
    try_except
      (request <- construct (check_ModifyLabelsRequest V)
         (ModifyLabelsRequest.mk Omitted (Given (Some ["UNREAD"]))) ;;
       _ <- await (CallModifyMessageLabels message_id request)
              (modify_message_labels _ gmail_service message_id request) ;;
       ret (dumps (JObj [("success", JBool true);
                         ("message_id", JStr message_id);
                         ("message", JStr "Email marked as read")])
              (Some 2)))
      (fun e =>
         logger_error ("Error in mark_as_read: " ++ e)
           (Return (error_envelope e)))).

Definition gmail_mark_as_unread (ctx : option Context) (message_id : string) : Handler World :=
  authorized ctx (fun gmail_service =>
    try_except
      (request <- construct (check_ModifyLabelsRequest V)
         (ModifyLabelsRequest.mk (Given (Some ["UNREAD"])) Omitted) ;;
       _ <- await (CallModifyMessageLabels message_id request)
              (modify_message_labels _ gmail_service message_id request) ;;
       ret (dumps (JObj [("success", JBool true);
                         ("message_id", JStr message_id);
                         ("message", JStr "Email marked as unread")])
              (Some 2)))
      (fun e =>
         logger_error ("Error in mark_as_unread: " ++ e)
           (Return (error_envelope e)))).

Definition gmail_archive_email (ctx : option Context) (message_id : string) : Handler World :=
  authorized ctx (fun gmail_service =>
    try_except
      (request <- construct (check_ModifyLabelsRequest V)
         (ModifyLabelsRequest.mk Omitted (Given (Some ["INBOX"]))) ;;
       _ <- await (CallModifyMessageLabels message_id request)
              (modify_message_labels _ gmail_service message_id request) ;;
       ret (dumps (JObj [("success", JBool true);
                         ("message_id", JStr message_id);
                         ("message", JStr "Email archived successfully")])
              (Some 2)))
      (fun e =>
         logger_error ("Error in archive_email: " ++ e)
           (Return (error_envelope e)))).

Definition gmail_unarchive_email (ctx : option Context) (message_id : string) : Handler World :=
  authorized ctx (fun gmail_service =>
    try_except
      (request <- construct (check_ModifyLabelsRequest V)
         (ModifyLabelsRequest.mk (Given (Some ["INBOX"])) Omitted) ;;
       _ <- await (CallModifyMessageLabels message_id request)
              (modify_message_labels _ gmail_service message_id request) ;;
       ret (dumps (JObj [("success", JBool true);
                         ("message_id", JStr message_id);
                         ("message", JStr "Email unarchived successfully")])
              (Some 2)))
      (fun e =>
         logger_error ("Error in unarchive_email: " ++ e)
           (Return (error_envelope e)))).

Definition gmail_delete_email (ctx : option Context) (message_id : string) : Handler World :=
  authorized ctx (fun gmail_service =>
    try_except
      (success <- await (CallDeleteMessage message_id)
                    (delete_message _ gmail_service message_id) ;;
       let result :=
         if success
         then JObj [("success", JBool true);
                    ("message_id", JStr message_id);
                    ("message", JStr "Email deleted successfully")]
         else JObj [("success", JBool false);
                    ("message_id", JStr message_id);
                    ("message", JStr "Failed to delete email")] in
       ret (dumps result (Some 2)))
      (fun e =>
         logger_error ("Error in delete_email: " ++ e)
           (Return (error_envelope e)))).

Definition gmail_add_label (ctx : option Context) (message_id label_ids : string) : Handler World :=
  authorized ctx (fun gmail_service =>
    try_except
      (let label_ids_list := parse_comma_separated_list (Some label_ids) in
       request <- construct (check_ModifyLabelsRequest V)
         (ModifyLabelsRequest.mk (Given label_ids_list) Omitted) ;;
       updated_message <- await (CallModifyMessageLabels message_id request)
                            (modify_message_labels _ gmail_service message_id request) ;;
       ret (dumps (JObj [("success", JBool true);
                         ("message_id", JStr message_id);
                         ("added_labels", Json.of_option_str_list label_ids_list);
                         ("current_labels", Json.of_str_list (Message.label_ids updated_message));
                         ("message", JStr ("Labels " ++ join_or label_ids_list "none"
                                           ++ " added successfully"))])
              (Some 2)))
      (fun e =>
         logger_error ("Error in add_label: " ++ e)
           (Return (error_envelope e)))).

Definition gmail_remove_label (ctx : option Context) (message_id label_ids : string) : Handler World :=
  authorized ctx (fun gmail_service =>
    try_except
      (let label_ids_list := parse_comma_separated_list (Some label_ids) in
       request <- construct (check_ModifyLabelsRequest V)
         (ModifyLabelsRequest.mk Omitted (Given label_ids_list)) ;;
       updated_message <- await (CallModifyMessageLabels message_id request)
                            (modify_message_labels _ gmail_service message_id request) ;;
       ret (dumps (JObj [("success", JBool true);
                         ("message_id", JStr message_id);
                         ("removed_labels", Json.of_option_str_list label_ids_list);
                         ("current_labels", Json.of_str_list (Message.label_ids updated_message));
                         ("message", JStr ("Labels " ++ join_or label_ids_list "none"
                                           ++ " removed successfully"))])
              (Some 2)))
      (fun e =>
         logger_error ("Error in remove_label: " ++ e)
           (Return (error_envelope e)))).

Definition gmail_create_label (ctx : option Context)
    (name message_list_visibility label_list_visibility : string) : Handler World :=
  authorized ctx (fun gmail_service =>
    try_except
      (request <- construct (check_CreateLabelRequest V)
         (CreateLabelRequest.mk name message_list_visibility label_list_visibility) ;;
       label <- await (CallCreateLabel request) (create_label _ gmail_service request) ;;
       ret (dumps (JObj [("success", JBool true);
                         ("label", Label.model_dump label);
                         ("message", JStr ("Label '" ++ name ++ "' created successfully"))])
              (Some 2)))
      (fun e =>
         logger_error ("Error in create_label: " ++ e)
           (Return (error_envelope e)))).

(** *** advanced.py *)

Definition gmail_forward_email (ctx : option Context) (message_id to : string)
    (cc bcc additional_message : option string) : Handler World :=
  authorized ctx (fun gmail_service =>
    try_except
      (let to_list := parse_comma_separated_list (Some to) in
       let cc_list := parse_comma_separated_list cc in
       let bcc_list := parse_comma_separated_list bcc in
       request <- construct (check_ForwardEmailRequest V)
         (ForwardEmailRequest.mk to_list cc_list bcc_list additional_message) ;;
       forwarded_message_id <- await (CallForwardMessage message_id request)
                                 (forward_message _ gmail_service message_id request) ;;
       ret (dumps (JObj [("success", JBool true);
                         ("forwarded_message_id", JStr forwarded_message_id);
                         ("original_message_id", JStr message_id);
                         ("message", JStr ("Email forwarded successfully to "
                                           ++ join_or to_list "recipients"))])
              (Some 2)))
      (fun e =>
         logger_error ("Error in forward_email: " ++ e)
           (Return (error_envelope e)))).

(** [l if l else None] *)
Definition list_or_none (l : list string) : option (list string) :=
  match l with
  | [] => None
  | _ :: _ => Some l
  end.

Definition gmail_move_to_folder (ctx : option Context) (message_id folder_label_id : string)
    (remove_inbox : bool) : Handler World :=
  authorized ctx (fun gmail_service =>
    try_except
      (let add_labels := [folder_label_id] in
       let remove_labels :=
         if remove_inbox && negb (existsb (String.eqb folder_label_id) ["INBOX"])
         then ([] ++ ["INBOX"])%list
         else [] in
       request <- construct (check_ModifyLabelsRequest V)
         (ModifyLabelsRequest.mk (Given (Some add_labels))
            (Given (list_or_none remove_labels))) ;;
       updated_message <- await (CallModifyMessageLabels message_id request)
                            (modify_message_labels _ gmail_service message_id request) ;;
       ret (dumps (JObj [("success", JBool true);
                         ("message_id", JStr message_id);
                         ("moved_to", JStr folder_label_id);
                         ("current_labels", Json.of_str_list (Message.label_ids updated_message));
                         ("message", JStr ("Email moved to " ++ folder_label_id))])
              (Some 2)))
      (fun e =>
         logger_error ("Error in move_to_folder: " ++ e)
           (Return (error_envelope e)))).

Definition gmail_get_threads (ctx : option Context) (max_results : Z)
    (label_ids query : option string) (include_spam_trash : bool)
    (page_token after before : option string) : Handler World :=
  authorized ctx (fun gmail_service =>
    try_except
      (let label_ids_list := parse_comma_separated_list label_ids in
       request <- construct (check_ThreadListRequest V)
         (ThreadListRequest.mk max_results label_ids_list query include_spam_trash
            page_token after before) ;;
       response <- await (CallListThreads request) (list_threads _ gmail_service request) ;;
       ret (dumps (JObj [("threads", JList (map ThreadSummary.model_dump
                                              (ThreadListResponse.threads response)));
                         ("next_page_token",
                          Json.of_option_str (ThreadListResponse.next_page_token response));
                         ("result_size_estimate",
                          Json.of_option_int (ThreadListResponse.result_size_estimate response));
                         ("count", JInt (Z.of_nat (List.length (ThreadListResponse.threads response))))])
              (Some 2)))
      (fun e =>
         logger_error ("Error in get_threads: " ++ e)
           (Return (dumps (JObj [("error", JStr e)]) (Some 2))))).

Definition gmail_get_thread_by_id (ctx : option Context) (thread_id : string)
    (format : MessageFormat) : Handler World :=
  authorized ctx (fun gmail_service =>
    try_except
      (thread <- await (CallGetThread thread_id format)
                   (get_thread _ gmail_service thread_id format) ;;
       ret (dumps (JObj [("success", JBool true);
                         ("thread", Thread.model_dump thread);
                         ("message_count", JInt (Z.of_nat (List.length (Thread.messages thread))))])
              (Some 2)))
      (fun e =>
         logger_error ("Error in get_thread_by_id: " ++ e)
           (Return (error_envelope e)))).

Definition gmail_create_draft (ctx : option Context) (to subject : string)
    (body_text body_html cc bcc thread_id in_reply_to : option string) : Handler World :=
  authorized ctx (fun gmail_service =>
    try_except
      (if negb (PyStr.truthy body_text) && negb (PyStr.truthy body_html)
       then ret missing_body
       else
         let to_list := parse_comma_separated_list (Some to) in
         let cc_list := parse_comma_separated_list cc in
         let bcc_list := parse_comma_separated_list bcc in
         request <- construct (check_CreateDraftRequest V)
           (CreateDraftRequest.mk to_list subject body_text body_html
              cc_list bcc_list thread_id in_reply_to) ;;
         draft_id <- await (CallCreateDraft request) (create_draft _ gmail_service request) ;;
         ret (dumps (JObj [("success", JBool true);
                           ("draft_id", JStr draft_id);
                           ("message", JStr ("Draft created successfully for "
                                             ++ join_or to_list "recipients"))])
                (Some 2)))
      (fun e =>
         logger_error ("Error in create_draft: " ++ e)
           (Return (error_envelope e)))).

Definition gmail_get_drafts (ctx : option Context) (max_results : Z)
    (page_token : option string) (format : MessageFormat)
    (query after before : option string) : Handler World :=
  authorized ctx (fun gmail_service =>
    try_except
      (request <- construct (check_DraftListRequest V)
         (DraftListRequest.mk max_results page_token format query after before) ;;
       response <- await (CallListDrafts request) (list_drafts _ gmail_service request) ;;
       ret (dumps (JObj [("drafts", JList (map Draft.model_dump
                                             (DraftListResponse.drafts response)));
                         ("next_page_token",
                          Json.of_option_str (DraftListResponse.next_page_token response));
                         ("result_size_estimate",
                          Json.of_option_int (DraftListResponse.result_size_estimate response));
                         ("count", JInt (Z.of_nat (List.length (DraftListResponse.drafts response))))])
              (Some 2)))
      (fun e =>
         logger_error ("Error in get_drafts: " ++ e)
           (Return (dumps (JObj [("error", JStr e)]) (Some 2))))).

Definition gmail_get_draft_by_id (ctx : option Context) (draft_id : string)
    (format : MessageFormat) : Handler World :=
  authorized ctx (fun gmail_service =>
    try_except
      (draft <- await (CallGetDraft draft_id format)
                  (get_draft _ gmail_service draft_id format) ;;
       ret (dumps (JObj [("success", JBool true);
                         ("draft", Draft.model_dump draft);
                         ("message", JStr ("Draft " ++ draft_id ++ " retrieved successfully"))])
              (Some 2)))
      (fun e =>
         logger_error ("Error in get_draft_by_id: " ++ e)
           (Return (error_envelope e)))).

Definition gmail_send_draft (ctx : option Context) (draft_id : string) : Handler World :=
  authorized ctx (fun gmail_service =>
    try_except
      (message_id <- await (CallSendDraft draft_id) (send_draft _ gmail_service draft_id) ;;
       ret (dumps (JObj [("success", JBool true);
                         ("message_id", JStr message_id);
                         ("draft_id", JStr draft_id);
                         ("message", JStr "Draft sent successfully")])
              (Some 2)))
      (fun e =>
         logger_error ("Error in send_draft: " ++ e)
           (Return (error_envelope e)))).

Definition gmail_get_attachments (ctx : option Context) (message_id : string)
    (attachment_id : option string) : Handler World :=
  authorized ctx (fun gmail_service =>
    try_except
      (result <-
         match attachment_id with
         | Some (String c s) =>
             let attachment_id := String c s in
             attachment <- await (CallGetAttachment message_id attachment_id)
                             (get_attachment _ gmail_service message_id attachment_id) ;;
             ret (JObj [("success", JBool true);
                        ("attachment", Attachment.model_dump attachment);
                        ("message", JStr ("Attachment " ++ attachment_id
                                          ++ " downloaded successfully"))])
         | _ =>
             message <- await (CallGetMessage message_id)
                          (get_message _ gmail_service message_id) ;;
             ret (JObj [("success", JBool true);
                        ("message_id", JStr message_id);
                        ("attachments", JList (map AttachmentInfo.model_dump
                                                 (Message.attachments message)));
                        ("count", JInt (Z.of_nat (List.length (Message.attachments message))));
                        ("message", JStr ("Found "
                                          ++ PyStr.str_of_nat (List.length (Message.attachments message))
                                          ++ " attachments"))])
         end ;;
       ret (dumps result (Some 2)))
      (fun e =>
         logger_error ("Error in get_attachments: " ++ e)
           (Return (error_envelope e)))).

(** *** Every tool, with its arguments *)

Inductive Tool : Type :=
| SendEmail (to subject : string) (body_text body_html cc bcc attachments : option string)
| ReplyToEmail (message_id : string) (body_text body_html : option string) (reply_all : bool)
| MarkAsRead (message_id : string)
| MarkAsUnread (message_id : string)
| ArchiveEmail (message_id : string)
| UnarchiveEmail (message_id : string)
| DeleteEmail (message_id : string)
| AddLabel (message_id label_ids : string)
| RemoveLabel (message_id label_ids : string)
| CreateLabel (name message_list_visibility label_list_visibility : string)
| ForwardEmail (message_id to : string) (cc bcc additional_message : option string)
| MoveToFolder (message_id folder_label_id : string) (remove_inbox : bool)
| GetThreads (max_results : Z) (label_ids query : option string) (include_spam_trash : bool)
    (page_token after before : option string)
| GetThreadById (thread_id : string) (format : MessageFormat)
| CreateDraft (to subject : string)
    (body_text body_html cc bcc thread_id in_reply_to : option string)
| GetDrafts (max_results : Z) (page_token : option string) (format : MessageFormat)
    (query after before : option string)
| GetDraftById (draft_id : string) (format : MessageFormat)
| SendDraft (draft_id : string)
| GetAttachments (message_id : string) (attachment_id : option string).

Definition run_tool (ctx : option Context) (t : Tool) : Handler World :=
  match t with
  | SendEmail to subject body_text body_html cc bcc attachments =>
      gmail_send_email ctx to subject body_text body_html cc bcc attachments
  | ReplyToEmail message_id body_text body_html reply_all =>
      gmail_reply_to_email ctx message_id body_text body_html reply_all
  | MarkAsRead message_id => gmail_mark_as_read ctx message_id
  | MarkAsUnread message_id => gmail_mark_as_unread ctx message_id
  | ArchiveEmail message_id => gmail_archive_email ctx message_id
  | UnarchiveEmail message_id => gmail_unarchive_email ctx message_id
  | DeleteEmail message_id => gmail_delete_email ctx message_id
  | AddLabel message_id label_ids => gmail_add_label ctx message_id label_ids
  | RemoveLabel message_id label_ids => gmail_remove_label ctx message_id label_ids
  | CreateLabel name mlv llv => gmail_create_label ctx name mlv llv
  | ForwardEmail message_id to cc bcc additional_message =>
      gmail_forward_email ctx message_id to cc bcc additional_message
  | MoveToFolder message_id folder_label_id remove_inbox =>
      gmail_move_to_folder ctx message_id folder_label_id remove_inbox
  | GetThreads max_results label_ids query include_spam_trash page_token after before =>
      gmail_get_threads ctx max_results label_ids query include_spam_trash page_token after before
  | GetThreadById thread_id format => gmail_get_thread_by_id ctx thread_id format
  | CreateDraft to subject body_text body_html cc bcc thread_id in_reply_to =>
      gmail_create_draft ctx to subject body_text body_html cc bcc thread_id in_reply_to
  | GetDrafts max_results page_token format query after before =>
      gmail_get_drafts ctx max_results page_token format query after before
  | GetDraftById draft_id format => gmail_get_draft_by_id ctx draft_id format
  | SendDraft draft_id => gmail_send_draft ctx draft_id
  | GetAttachments message_id attachment_id => gmail_get_attachments ctx message_id attachment_id
  end.

End Tools.

Arguments get_gmail_service {World} new_GmailService access_token.
Arguments authorized {World} new_GmailService ctx k st.
Arguments gmail_send_email {World}.
Arguments gmail_reply_to_email {World}.
Arguments gmail_mark_as_read {World}.
Arguments gmail_mark_as_unread {World}.
Arguments gmail_archive_email {World}.
Arguments gmail_unarchive_email {World}.
Arguments gmail_delete_email {World}.
Arguments gmail_add_label {World}.
Arguments gmail_remove_label {World}.
Arguments gmail_create_label {World}.
Arguments gmail_forward_email {World}.
Arguments gmail_move_to_folder {World}.
Arguments gmail_get_threads {World}.
Arguments gmail_get_thread_by_id {World}.
Arguments gmail_create_draft {World}.
Arguments gmail_get_drafts {World}.
Arguments gmail_get_draft_by_id {World}.
Arguments gmail_send_draft {World}.
Arguments gmail_get_attachments {World}.
Arguments run_tool {World}.

(** ** The specification's vocabulary *)

(** List parameter normalization, in the words of the specification. *)
Module Normalization.

Definition starts_with_space (s : string) : bool :=
  match s with
  | String c _ => PyStr.is_space c
  | EmptyString => false
  end.

Fixpoint ends_with_space (s : string) : bool :=
  match s with
  | EmptyString => false
  | String c EmptyString => PyStr.is_space c
  | String _ s' => ends_with_space s'
  end.

Fixpoint comma_free (s : string) : bool :=
  match s with
  | EmptyString => true
  | String c s' => negb (Ascii.eqb c ",") && comma_free s'
  end.

(** [t] is [seg] with the surrounding whitespace trimmed. *)
Definition trimmed (seg t : string) : Prop :=
  exists l r,
    seg = l ++ t ++ r
    /\ PyStr.all_space l = true /\ PyStr.all_space r = true
    /\ starts_with_space t = false /\ ends_with_space t = false.

(** [segs] are the comma-separated segments of [v]. *)
Definition segments (v : string) (segs : list string) : Prop :=
  segs <> [] /\ Forall (fun seg => comma_free seg = true) segs
  /\ String.concat "," segs = v.

(** The trimmed segments that are not empty, in their order, each as often
    as it occurs. *)
Inductive kept : list string -> list string -> Prop :=
| kept_nil : kept [] []
| kept_drop seg segs out :
    trimmed seg EmptyString -> kept segs out -> kept (seg :: segs) out
| kept_keep seg segs t out :
    trimmed seg t -> t <> EmptyString -> kept segs out ->
    kept (seg :: segs) (t :: out).

Definition normalized (value : option string) (out : option (list string)) : Prop :=
  match value with
  | None => out = None
  | Some v =>
      if PyStr.all_space v
      then out = None
      else exists segs l, segments v segs /\ kept segs l /\ out = Some l
  end.

End Normalization.

(** New entries of the call trace between two states. *)
Definition new_calls {World : Type} (st st' : State World) : list CallEvent :=
  skipn (List.length (calls st)) (calls st').

(** A returned object reports a failure when it carries an [error] field or
    [success: false]. *)
Definition reports_failure (j : json) : bool :=
  Json.has_key "error" j
  || match Json.field "success" j with
     | Some (JBool false) => true
     | _ => false
     end.

Definition is_send_email (t : Tool) : bool :=
  match t with
  | SendEmail _ _ _ _ _ _ _ => true
  | _ => false
  end.

(** The two listing handlers. *)
Definition is_listing (t : Tool) : bool :=
  match t with
  | GetThreads _ _ _ _ _ _ _ => true
  | GetDrafts _ _ _ _ _ _ => true
  | _ => false
  end.

(** Send, reply and create-draft invoked with both bodies absent. *)
Definition bodies_absent (t : Tool) : bool :=
  match t with
  | SendEmail _ _ None None _ _ _ => true
  | ReplyToEmail _ None None _ => true
  | CreateDraft _ _ None None _ _ _ _ => true
  | _ => false
  end.

(** The same three handlers invoked with no usable body ([None] or [""]). *)
Definition bodies_missing (t : Tool) : bool :=
  match t with
  | SendEmail _ _ body_text body_html _ _ _
  | ReplyToEmail _ body_text body_html _
  | CreateDraft _ _ body_text body_html _ _ _ _ =>
      negb (PyStr.truthy body_text) && negb (PyStr.truthy body_html)
  | _ => false
  end.

(** The line a handler writes through [logger.error] for an exception. *)
Definition error_log_line (t : Tool) (e : exn) : string :=
  match t with
  | SendEmail _ _ _ _ _ _ _ => "Error sending email: " ++ e
  | ReplyToEmail _ _ _ _ => "Error in reply_to_email: " ++ e
  | MarkAsRead _ => "Error in mark_as_read: " ++ e
  | MarkAsUnread _ => "Error in mark_as_unread: " ++ e
  | ArchiveEmail _ => "Error in archive_email: " ++ e
  | UnarchiveEmail _ => "Error in unarchive_email: " ++ e
  | DeleteEmail _ => "Error in delete_email: " ++ e
  | AddLabel _ _ => "Error in add_label: " ++ e
  | RemoveLabel _ _ => "Error in remove_label: " ++ e
  | CreateLabel _ _ _ => "Error in create_label: " ++ e
  | ForwardEmail _ _ _ _ _ => "Error in forward_email: " ++ e
  | MoveToFolder _ _ _ => "Error in move_to_folder: " ++ e
  | GetThreads _ _ _ _ _ _ _ => "Error in get_threads: " ++ e
  | GetThreadById _ _ => "Error in get_thread_by_id: " ++ e
  | CreateDraft _ _ _ _ _ _ _ _ => "Error in create_draft: " ++ e
  | GetDrafts _ _ _ _ _ _ => "Error in get_drafts: " ++ e
  | GetDraftById _ _ => "Error in get_draft_by_id: " ++ e
  | SendDraft _ => "Error in send_draft: " ++ e
  | GetAttachments _ _ => "Error in get_attachments: " ++ e
  end.

(** The header value with the scheme prefix cut off, the rest untouched. *)
Definition raw_remainder (auth_header : string) : string :=
  String.substring 7 (String.length auth_header - 7) auth_header.

(** The reply subject as the specification words it: the prefix is added
    exactly when the subject does not already start with it. *)
Definition subject_with_prefix (subject : string) : string :=
  if String.prefix "Re: " subject then subject else "Re: " ++ subject.

(** The label request of a move as the specification words it: the target
    is added; [INBOX] is removed unless the target is [INBOX] or the caller
    suppressed the removal ([remove_inbox] false). *)
Definition move_request (folder_label_id : string) (remove_inbox : bool)
    : ModifyLabelsRequest.t :=
  ModifyLabelsRequest.mk
    (Given (Some [folder_label_id]))
    (Given (if String.eqb folder_label_id "INBOX" || negb remove_inbox
            then None else Some ["INBOX"])).

(** The sender of the original message as a recipient list. *)
Definition reply_recipients (original : Message.t) : list string :=
  match Message.sender original with
  | None => []
  | Some s => if String.eqb s "" then [] else [s]
  end.

(** ** Concrete instances used to run the handlers *)

Module Demo.

(** A request whose only header is [Authorization]. *)
Definition ctx_with (auth_header : string) : option Context :=
  Some (mkContext (Some (mkRequestContext (mkRequest
    (fun name => if String.eqb name "Authorization" then Some auth_header else None))))).

Definition ctx : option Context := ctx_with "Bearer token".

(** A request without an [Authorization] header. *)
Definition anonymous : option Context :=
  Some (mkContext (Some (mkRequestContext (mkRequest (fun _ => None))))).

(** Every request model is accepted. *)
Definition accept_all : Validation :=
  mkValidation (fun _ => None) (fun _ => None) (fun _ => None) (fun _ => None)
    (fun _ => None) (fun _ => None) (fun _ => None).

Definition returns {A : Type} (a : A) : Method unit A := fun w => (inr a, w).
Definition raises {A : Type} (e : exn) : Method unit A := fun w => (inl e, w).

Definition message (subject : option string) : Message.t :=
  Message.mk (Some "ann@x.com") (Some "bob@x.com") subject (Some "t1") ["INBOX"]
    [AttachmentInfo.mk (JObj [("filename", JStr "a.txt")]);
     AttachmentInfo.mk (JObj [("filename", JStr "b.txt")])].

(** A client whose calls succeed; fetched messages carry [subject], and
    [delete_message] answers [deleted]. *)
Definition service (subject : option string) (deleted : bool) (_ : TokenInfo.t)
    : GmailService unit :=
  mkGmailService unit
    (fun _ => returns "m2")
    (fun _ => returns (message subject))
    (fun _ _ => returns (message subject))
    (fun _ => returns deleted)
    (fun _ => returns (Label.mk (JObj [("id", JStr "L1")])))
    (fun _ _ => returns "m3")
    (fun _ => returns (ThreadListResponse.mk [] None None))
    (fun _ _ => returns (Thread.mk [] (JObj [])))
    (fun _ => returns "d1")
    (fun _ => returns (DraftListResponse.mk [] None None))
    (fun _ _ => returns (Draft.mk (JObj [])))
    (fun _ => returns "m4")
    (fun _ _ => returns (Attachment.mk (JObj [("data", JStr "AAAA")]))).

(** A client whose every call raises [boom]. *)
Definition failing (_ : TokenInfo.t) : GmailService unit :=
  mkGmailService unit
    (fun _ => raises "boom") (fun _ => raises "boom") (fun _ _ => raises "boom")
    (fun _ => raises "boom") (fun _ => raises "boom") (fun _ _ => raises "boom")
    (fun _ => raises "boom") (fun _ _ => raises "boom") (fun _ => raises "boom")
    (fun _ => raises "boom") (fun _ _ => raises "boom") (fun _ => raises "boom")
    (fun _ _ => raises "boom").

Definition start : State unit := mkState tt [] [].

End Demo.

(** ** Vocabulary of the further properties *)

(** Only whitespace and commas. *)
Fixpoint only_space_or_comma (s : string) : bool :=
  match s with
  | EmptyString => true
  | String c s' => (PyStr.is_space c || Ascii.eqb c ",") && only_space_or_comma s'
  end.

Fixpoint count_commas (s : string) : nat :=
  match s with
  | EmptyString => 0
  | String c s' => (if Ascii.eqb c "," then 1 else 0) + count_commas s'
  end.

(** An entry of a normalized list: not empty, as [strip] leaves it, and
    without a comma. *)
Definition is_entry (x : string) : Prop :=
  x <> "" /\ PyStr.strip x = x /\ Normalization.comma_free x = true.

(** What a call does to the mailbox. *)
Inductive CallKind : Type :=
| Reads
| Sends
| WritesDraft
| ModifiesLabels
| CreatesLabel
| Deletes.

Definition kind_of (c : Call) : CallKind :=
  match c with
  | CallSendMessage _ => Sends
  | CallGetMessage _ => Reads
  | CallModifyMessageLabels _ _ => ModifiesLabels
  | CallDeleteMessage _ => Deletes
  | CallCreateLabel _ => CreatesLabel
  | CallForwardMessage _ _ => Sends
  | CallListThreads _ => Reads
  | CallGetThread _ _ => Reads
  | CallCreateDraft _ => WritesDraft
  | CallListDrafts _ => Reads
  | CallGetDraft _ _ => Reads
  | CallSendDraft _ => Sends
  | CallGetAttachment _ _ => Reads
  end.

(** The kinds of call each tool makes, in the order it makes them. *)
Definition kinds_of_tool (t : Tool) : list CallKind :=
  match t with
  | SendEmail _ _ _ _ _ _ _ => [Sends]
  | ReplyToEmail _ _ _ _ => [Reads; Sends]
  | MarkAsRead _ | MarkAsUnread _ | ArchiveEmail _ | UnarchiveEmail _ => [ModifiesLabels]
  | DeleteEmail _ => [Deletes]
  | AddLabel _ _ | RemoveLabel _ _ => [ModifiesLabels]
  | CreateLabel _ _ _ => [CreatesLabel]
  | ForwardEmail _ _ _ _ _ => [Sends]
  | MoveToFolder _ _ _ => [ModifiesLabels]
  | GetThreads _ _ _ _ _ _ _ => [Reads]
  | GetThreadById _ _ => [Reads]
  | CreateDraft _ _ _ _ _ _ _ _ => [WritesDraft]
  | GetDrafts _ _ _ _ _ _ => [Reads]
  | GetDraftById _ _ => [Reads]
  | SendDraft _ => [Sends]
  | GetAttachments _ _ => [Reads]
  end.

(** The message, thread or draft a call names. *)
Definition call_target (c : Call) : option string :=
  match c with
  | CallGetMessage id | CallModifyMessageLabels id _ | CallDeleteMessage id
  | CallForwardMessage id _ | CallGetThread id _ | CallGetDraft id _
  | CallSendDraft id | CallGetAttachment id _ => Some id
  | CallSendMessage _ | CallCreateLabel _ | CallListThreads _
  | CallCreateDraft _ | CallListDrafts _ => None
  end.

(** The message, thread or draft a tool is invoked on. *)
Definition tool_target (t : Tool) : option string :=
  match t with
  | ReplyToEmail id _ _ _ | MarkAsRead id | MarkAsUnread id | ArchiveEmail id
  | UnarchiveEmail id | DeleteEmail id | AddLabel id _ | RemoveLabel id _
  | ForwardEmail id _ _ _ _ | MoveToFolder id _ _ | GetThreadById id _
  | GetDraftById id _ | SendDraft id | GetAttachments id _ => Some id
  | SendEmail _ _ _ _ _ _ _ | CreateLabel _ _ _ | GetThreads _ _ _ _ _ _ _
  | CreateDraft _ _ _ _ _ _ _ _ | GetDrafts _ _ _ _ _ _ => None
  end.

(** The request model carried by a call was accepted by its constructor. *)
Definition accepted (V : Validation) (c : Call) : Prop :=
  match c with
  | CallSendMessage r => check_SendEmailRequest V r = None
  | CallModifyMessageLabels _ r => check_ModifyLabelsRequest V r = None
  | CallCreateLabel r => check_CreateLabelRequest V r = None
  | CallForwardMessage _ r => check_ForwardEmailRequest V r = None
  | CallListThreads r => check_ThreadListRequest V r = None
  | CallCreateDraft r => check_CreateDraftRequest V r = None
  | CallListDrafts r => check_DraftListRequest V r = None
  | _ => True
  end.




Definition is_reply (t : Tool) : bool :=
  match t with
  | ReplyToEmail _ _ _ _ => true
  | _ => false
  end.

Module Cases.

(** A request with the given [Authorization] header, or none. *)
Definition request_context (auth_header : option string) : RequestContext :=
  mkRequestContext (mkRequest
    (fun name => if String.eqb name "Authorization" then auth_header else None)).


(** A client that lists three threads and three drafts. *)
Definition listing (_ : TokenInfo.t) : GmailService unit :=
  mkGmailService unit
    (fun _ => Demo.returns "m2")
    (fun _ => Demo.returns (Demo.message None))
    (fun _ _ => Demo.returns (Demo.message None))
    (fun _ => Demo.returns true)
    (fun _ => Demo.returns (Label.mk (JObj [])))
    (fun _ _ => Demo.returns "m3")
    (fun _ => Demo.returns
                (ThreadListResponse.mk
                   [ThreadSummary.mk (JObj [("id", JStr "t1")]);
                    ThreadSummary.mk (JObj [("id", JStr "t2")]);
                    ThreadSummary.mk (JObj [("id", JStr "t3")])]
                   (Some "next") (Some 3%Z)))
    (fun _ _ => Demo.returns (Thread.mk [] (JObj [])))
    (fun _ => Demo.returns "d1")
    (fun _ => Demo.returns
                (DraftListResponse.mk
                   [Draft.mk (JObj [("id", JStr "d1")]);
                    Draft.mk (JObj [("id", JStr "d2")]);
                    Draft.mk (JObj [("id", JStr "d3")])]
                   None None))
    (fun _ _ => Demo.returns (Draft.mk (JObj [])))
    (fun _ => Demo.returns "m4")
    (fun _ _ => Demo.returns (Attachment.mk (JObj []))).

(** A client whose [get_message] raises and whose [send_message] returns. *)
Definition unreadable (_ : TokenInfo.t) : GmailService unit :=
  mkGmailService unit
    (fun _ => Demo.returns "m2")
    (fun _ => Demo.raises "not found")
    (fun _ _ => Demo.returns (Demo.message None))
    (fun _ => Demo.returns true)
    (fun _ => Demo.returns (Label.mk (JObj [])))
    (fun _ _ => Demo.returns "m3")
    (fun _ => Demo.returns (ThreadListResponse.mk [] None None))
    (fun _ _ => Demo.returns (Thread.mk [] (JObj [])))
    (fun _ => Demo.returns "d1")
    (fun _ => Demo.returns (DraftListResponse.mk [] None None))
    (fun _ _ => Demo.returns (Draft.mk (JObj [])))
    (fun _ => Demo.returns "m4")
    (fun _ _ => Demo.returns (Attachment.mk (JObj []))).

End Cases.

(** * Properties *)

(** ** Strings *)

Lemma append_empty_r (s : string) : s ++ "" = s.
Proof. induction s as [|c s IH]; simpl; [reflexivity | now rewrite IH]. Qed.

Lemma append_associative (a b c : string) : (a ++ b) ++ c = a ++ (b ++ c).
Proof. induction a as [|x a IH]; simpl; [reflexivity | now rewrite IH]. Qed.

Lemma all_space_app (a b : string) :
  PyStr.all_space (a ++ b) = PyStr.all_space a && PyStr.all_space b.
Proof.
  induction a as [|c a IH]; simpl; [reflexivity|].
  rewrite IH. now rewrite andb_assoc.
Qed.

Lemma lstrip_decomp (s : string) :
  exists l, s = l ++ PyStr.lstrip s
            /\ PyStr.all_space l = true
            /\ Normalization.starts_with_space (PyStr.lstrip s) = false.
Proof.
  induction s as [|c s (l & Hs & Hl & Hst)]; simpl.
  - exists ""; auto.
  - destruct (PyStr.is_space c) eqn:Hc.
    + exists (String c l); simpl. rewrite Hc, Hl. repeat split; auto.
      now rewrite <- Hs.
    + exists ""; simpl. auto.
Qed.

Lemma rstrip_decomp (s : string) :
  exists r, s = PyStr.rstrip s ++ r
            /\ PyStr.all_space r = true
            /\ Normalization.ends_with_space (PyStr.rstrip s) = false.
Proof.
  induction s as [|c s (r & Hs & Hr & He)]; simpl.
  - exists ""; auto.
  - destruct (PyStr.rstrip s) as [|a b] eqn:Hrs.
    + simpl in Hs. subst r.
      destruct (PyStr.is_space c) eqn:Hc.
      * exists (String c s); simpl. rewrite Hc, Hr. auto.
      * exists s; simpl. auto.
    + exists r. simpl. rewrite Hs at 1. simpl. auto.
Qed.

Lemma rstrip_keeps_start (s : string) :
  Normalization.starts_with_space s = false ->
  Normalization.starts_with_space (PyStr.rstrip s) = false.
Proof.
  destruct s as [|c s]; simpl; [auto|]. intros Hc.
  destruct (PyStr.rstrip s); [rewrite Hc|]; simpl; auto.
Qed.

Lemma strip_trimmed (s : string) : Normalization.trimmed s (PyStr.strip s).
Proof.
  destruct (lstrip_decomp s) as (l & Hs & Hl & Hst).
  destruct (rstrip_decomp (PyStr.lstrip s)) as (r & Hm & Hr & He).
  exists l, r. unfold PyStr.strip.
  rewrite <- Hm. repeat split; auto using rstrip_keeps_start.
Qed.

Lemma lstrip_all_space (s : string) : PyStr.all_space s = true -> PyStr.lstrip s = "".
Proof.
  induction s as [|c s IH]; simpl; [auto|].
  intros H. apply andb_true_iff in H as [Hc Hs]. rewrite Hc. auto.
Qed.

Lemma rstrip_all_space (s : string) : PyStr.all_space s = true -> PyStr.rstrip s = "".
Proof.
  induction s as [|c s IH]; simpl; [auto|].
  intros H. apply andb_true_iff in H as [Hc Hs]. rewrite (IH Hs), Hc. auto.
Qed.

Lemma lstrip_app_space (l x : string) :
  PyStr.all_space l = true -> PyStr.lstrip (l ++ x) = PyStr.lstrip x.
Proof.
  induction l as [|c l IH]; simpl; [auto|].
  intros H. apply andb_true_iff in H as [Hc Hl]. rewrite Hc. auto.
Qed.

Lemma lstrip_id (t : string) :
  Normalization.starts_with_space t = false -> PyStr.lstrip t = t.
Proof. destruct t as [|c t]; simpl; [auto|]. now intros ->. Qed.

Lemma rstrip_app_space (t r : string) :
  PyStr.all_space r = true -> PyStr.rstrip (t ++ r) = PyStr.rstrip t.
Proof.
  intros Hr. induction t as [|c t IH]; simpl.
  - now apply rstrip_all_space.
  - now rewrite IH.
Qed.

Lemma rstrip_id (t : string) :
  Normalization.ends_with_space t = false -> PyStr.rstrip t = t.
Proof.
  induction t as [|c t IH]; [auto|].
  destruct t as [|a b].
  - simpl. now intros ->.
  - intros H. change (Normalization.ends_with_space (String a b) = false) in H.
    change (PyStr.rstrip (String c (String a b)))
      with (match PyStr.rstrip (String a b) with
            | EmptyString => if PyStr.is_space c then EmptyString else String c EmptyString
            | r => String c r
            end).
    now rewrite (IH H).
Qed.

Lemma trimmed_unique (seg t : string) :
  Normalization.trimmed seg t -> t = PyStr.strip seg.
Proof.
  intros (l & r & -> & Hl & Hr & Hst & He).
  unfold PyStr.strip. rewrite (lstrip_app_space _ _ Hl).
  destruct t as [|c t].
  - simpl. now rewrite (lstrip_all_space _ Hr).
  - rewrite lstrip_id.
    + rewrite (rstrip_app_space _ _ Hr). symmetry. now apply rstrip_id.
    + exact Hst.
Qed.

Lemma strip_empty_iff (s : string) :
  PyStr.strip s = "" <-> PyStr.all_space s = true.
Proof.
  split; intros H.
  - destruct (strip_trimmed s) as (l & r & Hs & Hl & Hr & _).
    rewrite H in Hs. simpl in Hs. rewrite Hs, all_space_app, Hl, Hr. reflexivity.
  - unfold PyStr.strip. now rewrite (lstrip_all_space _ H).
Qed.

Lemma split_not_nil (sep : ascii) (s : string) : PyStr.split sep s <> [].
Proof.
  destruct s as [|c s]; simpl; [discriminate|].
  destruct (Ascii.eqb c sep); [discriminate|].
  destruct (PyStr.split sep s); discriminate.
Qed.

Lemma concat_cons_char (sep : string) (c : ascii) (seg : string) (segs : list string) :
  String.concat sep (String c seg :: segs) = String c (String.concat sep (seg :: segs)).
Proof. destruct segs; reflexivity. Qed.

Lemma split_join (s : string) : String.concat "," (PyStr.split "," s) = s.
Proof.
  induction s as [|c s IH]; simpl; [reflexivity|].
  destruct (Ascii.eqb c ",") eqn:Hc.
  - apply Ascii.eqb_eq in Hc. subst c.
    destruct (PyStr.split "," s) as [|seg segs] eqn:Hs.
    + now apply split_not_nil in Hs.
    + simpl in *. now rewrite IH.
  - destruct (PyStr.split "," s) as [|seg segs] eqn:Hs.
    + now apply split_not_nil in Hs.
    + rewrite concat_cons_char. now rewrite IH.
Qed.

Lemma split_comma_free (s : string) :
  Forall (fun seg => Normalization.comma_free seg = true) (PyStr.split "," s).
Proof.
  induction s as [|c s IH]; simpl.
  - constructor; [reflexivity | constructor].
  - destruct (Ascii.eqb c ",") eqn:Hc.
    + constructor; [reflexivity | exact IH].
    + destruct (PyStr.split "," s) as [|seg segs].
      * constructor; [simpl; now rewrite Hc | constructor].
      * inversion IH; subst. constructor; [simpl; now rewrite Hc | assumption].
Qed.

Lemma split_single (x : string) :
  Normalization.comma_free x = true -> PyStr.split "," x = [x].
Proof.
  induction x as [|c x IH]; simpl; [reflexivity|].
  intros H. apply andb_true_iff in H as [Hc Hx].
  apply negb_true_iff in Hc. rewrite Hc, (IH Hx). reflexivity.
Qed.

Lemma split_app (x rest : string) :
  Normalization.comma_free x = true ->
  PyStr.split "," (x ++ String "," rest) = x :: PyStr.split "," rest.
Proof.
  induction x as [|c x IH]; simpl; [reflexivity|].
  intros H. apply andb_true_iff in H as [Hc Hx].
  apply negb_true_iff in Hc. rewrite Hc, (IH Hx). reflexivity.
Qed.

Lemma segments_unique (v : string) (segs : list string) :
  Normalization.segments v segs -> segs = PyStr.split "," v.
Proof.
  intros (Hne & Hfree & Hjoin). subst v.
  induction segs as [|x segs IH]; [congruence|].
  inversion Hfree as [|? ? Hx Hrest]; subst.
  destruct segs as [|y segs].
  - simpl. symmetry. now apply split_single.
  - change (String.concat "," (x :: y :: segs))
      with (x ++ String "," (String.concat "," (y :: segs))).
    rewrite (split_app _ _ Hx). f_equal. apply IH; [discriminate | assumption].
Qed.

Lemma split_segments (v : string) : Normalization.segments v (PyStr.split "," v).
Proof.
  repeat split; [apply split_not_nil | apply split_comma_free | apply split_join].
Qed.

Lemma nonempty_false (s : string) : PyStr.nonempty s = false <-> s = "".
Proof. destruct s; simpl; split; congruence. Qed.

(** The list comprehension of the source keeps what the specification
    keeps. *)
Lemma kept_comprehension (segs : list string) :
  Normalization.kept segs
    (map PyStr.strip (filter (fun item => PyStr.nonempty (PyStr.strip item)) segs)).
Proof.
  induction segs as [|seg segs IH]; simpl; [constructor|].
  destruct (PyStr.nonempty (PyStr.strip seg)) eqn:Hn; simpl.
  - apply Normalization.kept_keep; [apply strip_trimmed | | exact IH].
    intros E. rewrite E in Hn. discriminate.
  - apply nonempty_false in Hn.
    apply Normalization.kept_drop; [| exact IH].
    rewrite <- Hn. apply strip_trimmed.
Qed.

Lemma kept_unique (segs out : list string) :
  Normalization.kept segs out ->
  out = map PyStr.strip (filter (fun item => PyStr.nonempty (PyStr.strip item)) segs).
Proof.
  induction 1 as [| seg segs out Ht _ IH | seg segs t out Ht Hne _ IH]; simpl.
  - reflexivity.
  - apply trimmed_unique in Ht. rewrite <- Ht. simpl. exact IH.
  - apply trimmed_unique in Ht. rewrite <- Ht.
    destruct t; [congruence|]. simpl. now rewrite <- Ht, <- IH.
Qed.

(** C3. List parameter normalization: an absent or blank input gives
    absence; any other input gives its comma-separated segments, trimmed,
    the empty ones dropped, in their order and with repetitions kept. The
    relation [Normalization.normalized] says this in the specification's
    words, and [parse_comma_separated_list] computes exactly the output it
    allows; the example of the specification and a repeated entry are
    evaluated. *)
Theorem parse_comma_separated_list_normalizes :
  (forall value out,
      Normalization.normalized value out <-> parse_comma_separated_list value = out)
  /\ parse_comma_separated_list (Some "a@x.com, ,b@x.com") = Some ["a@x.com"; "b@x.com"]
  /\ parse_comma_separated_list (Some " b , a,b ,, a ") = Some ["b"; "a"; "b"; "a"]
  /\ parse_comma_separated_list (Some "   ") = None
  /\ parse_comma_separated_list (Some "") = None.
Proof.
  split; [| repeat split; reflexivity].
  intros [v|] out; simpl; [| split; congruence].
  destruct (PyStr.all_space v) eqn:Hblank.
  - apply strip_empty_iff in Hblank. rewrite Hblank. simpl. split; congruence.
  - destruct (String.eqb (PyStr.strip v) "") eqn:Hs.
    + apply String.eqb_eq, strip_empty_iff in Hs. congruence.
    + split.
      * intros (segs & l & Hsegs & Hkept & ->).
        apply segments_unique in Hsegs. subst segs.
        now rewrite (kept_unique _ _ Hkept).
      * intros <-. eexists _, _.
        split; [apply split_segments | split; [apply kept_comprehension | reflexivity]].
Qed.

(** ** Token extraction *)

Lemma get_access_token_no_context :
  get_access_token None = inl (mkHTTPException 401%Z "No request context available")
  /\ get_access_token (Some (mkContext None))
     = inl (mkHTTPException 401%Z "No request context available").
Proof. split; reflexivity. Qed.


(** An accepted header gives the header with every occurrence of the scheme
    removed. *)
Lemma get_access_token_accepts (rc : RequestContext) (h : string) :
  headers_get (request rc) "Authorization" = Some h ->
  PyStr.startswith h "Bearer " = true ->
  get_access_token (Some (mkContext (Some rc))) = inr (PyStr.replace h "Bearer " "").
Proof.
  unfold get_access_token. simpl. intros -> Hp. rewrite Hp.
  destruct h; [discriminate | reflexivity].
Qed.

Lemma replace_scheme_prefix (token : string) :
  PyStr.replace ("Bearer " ++ token) "Bearer " "" = PyStr.replace token "Bearer " "".
Proof. unfold PyStr.replace. simpl. destruct token; reflexivity. Qed.

Lemma replace_from_without_occurrence (old new s : string) :
  PyStr.contains old s = false -> PyStr.replace_from old new 0 s = s.
Proof.
  induction s as [|c s IH]; [reflexivity|].
  intros H. apply orb_false_iff in H as [Hp Hs].
  change (PyStr.replace_from old new 0 (String c s))
    with (if String.prefix old (String c s)
          then new ++ PyStr.replace_from old new (String.length old - 1) s
          else String c (PyStr.replace_from old new 0 s)).
  rewrite Hp. f_equal. apply IH. exact Hs.
Qed.

(** A token in which the scheme does not occur is returned as it is. *)
Lemma get_access_token_plain (rc : RequestContext) (token : string) :
  headers_get (request rc) "Authorization" = Some ("Bearer " ++ token) ->
  PyStr.contains "Bearer " token = false ->
  get_access_token (Some (mkContext (Some rc))) = inr token.
Proof.
  intros Hh Hc.
  rewrite (get_access_token_accepts rc _ Hh).
  - rewrite replace_scheme_prefix. unfold PyStr.replace.
    now rewrite (replace_from_without_occurrence _ _ _ Hc).
  - unfold PyStr.startswith. destruct token; reflexivity.
Qed.

(** C4. Token extraction does not return the rest of the header unchanged:
    [str.replace] removes the scheme wherever it occurs. For the header
    [Bearer a Bearer b], which starts with the scheme, the rest of the header
    is [a Bearer b] and the handler obtains [a b]. A header without the
    scheme is rejected with the fixed 401. *)
Theorem get_access_token_removes_inner_scheme :
  PyStr.startswith "Bearer a Bearer b" "Bearer " = true
  /\ raw_remainder "Bearer a Bearer b" = "a Bearer b"
  /\ get_access_token (Demo.ctx_with "Bearer a Bearer b") = inr "a b"
  /\ get_access_token (Demo.ctx_with "Bearer a b") = inr (raw_remainder "Bearer a b")
  /\ get_access_token (Demo.ctx_with "Basic a")
     = inl (mkHTTPException 401%Z "No valid access token provided")
  /\ get_access_token Demo.anonymous
     = inl (mkHTTPException 401%Z "No valid access token provided").
Proof. repeat split; reflexivity. Qed.

(** ** Handlers *)

Ltac unfold_handlers :=
  unfold run_tool, gmail_send_email, gmail_reply_to_email, gmail_mark_as_read,
    gmail_mark_as_unread, gmail_archive_email, gmail_unarchive_email,
    gmail_delete_email, gmail_add_label, gmail_remove_label, gmail_create_label,
    gmail_forward_email, gmail_move_to_folder, gmail_get_threads,
    gmail_get_thread_by_id, gmail_create_draft, gmail_get_drafts,
    gmail_get_draft_by_id, gmail_send_draft, gmail_get_attachments,
    authorized, try_except, bind, await, construct, ret, logger_error in *.

(** Case analysis on the innermost scrutinee of the goal. *)
Ltac case_step :=
  match goal with
  | |- context [match ?x with _ => _ end] =>
      lazymatch x with
      | context [match _ with _ => _ end] => fail
      | _ => destruct x eqn:?
      end
  end.


(** C9. When [delete_message] returns false the delete handler returns the
    object with [success] false, the message id and the text
    [Failed to delete email]; nothing is raised and nothing is logged. *)
Theorem gmail_delete_email_reports_false {World : Type}
    (new_GmailService : TokenInfo.t -> GmailService World)
    (ctx : option Context) (message_id token : string) (st : State World) (w : World) :
  get_access_token ctx = inr token ->
  delete_message _ (get_gmail_service new_GmailService token) message_id (world st)
  = (inr false, w) ->
  gmail_delete_email new_GmailService ctx message_id st
  = (Return (dumps (JObj [("success", JBool false);
                          ("message_id", JStr message_id);
                          ("message", JStr "Failed to delete email")])
               (Some 2)),
     mkState w (calls st ++ [mkCallEvent (CallDeleteMessage message_id) None]) (logs st)).
Proof.
  intros Htok Hdel. unfold_handlers. rewrite Htok, Hdel. reflexivity.
Qed.

Lemma gmail_delete_email_reports_false_witness :
  get_access_token Demo.ctx = inr "token"
  /\ gmail_delete_email (Demo.service None false) Demo.ctx "m1" Demo.start
     = (Return (dumps (JObj [("success", JBool false);
                             ("message_id", JStr "m1");
                             ("message", JStr "Failed to delete email")])
                  (Some 2)),
        mkState tt [mkCallEvent (CallDeleteMessage "m1") None] []).
Proof.
  split; [reflexivity|].
  apply (gmail_delete_email_reports_false (Demo.service None false)
           Demo.ctx "m1" "token" Demo.start tt); reflexivity.
Defined.

Lemma skipn_length_app {A : Type} (l x : list A) : skipn (List.length l) (l ++ x) = x.
Proof. induction l as [|a l IH]; simpl; auto. Qed.

Lemma skipn_length_self {A : Type} (l : list A) : skipn (List.length l) l = [].
Proof. induction l as [|a l IH]; simpl; auto. Qed.

Lemma skipn_length_app2 {A : Type} (l x y : list A) :
  skipn (List.length l) ((l ++ x) ++ y) = (x ++ y)%list.
Proof. rewrite <- app_assoc. apply skipn_length_app. Qed.

Lemma new_calls_same {World : Type} (st : State World) : new_calls st st = [].
Proof. apply skipn_length_self. Qed.

(** Reading the new calls off a final state given by its fields. *)
Ltac trace :=
  unfold new_calls; cbn [calls snd fst];
  rewrite ?skipn_length_self, ?skipn_length_app2, ?skipn_length_app;
  cbn [app].

(** Send, reply and create-draft stop at the validation when neither body
    is usable ([None] or the empty string): the state is left as it was. *)
Lemma missing_bodies_stop {World : Type} (V : Validation)
    (new_GmailService : TokenInfo.t -> GmailService World)
    (ctx : option Context) (t : Tool) (st : State World) :
  bodies_missing t = true ->
  snd (run_tool V new_GmailService ctx t st) = st
  /\ forall token, get_access_token ctx = inr token ->
       fst (run_tool V new_GmailService ctx t st) = Return missing_body.
Proof.
  intros H. destruct t; simpl in H; try discriminate;
    unfold_handlers; rewrite H;
    destruct (get_access_token ctx); simpl; split; auto; intros; discriminate.
Qed.

Lemma bodies_absent_missing (t : Tool) : bodies_absent t = true -> bodies_missing t = true.
Proof.
  destruct t; simpl; try discriminate;
    repeat match goal with
           | |- context [match ?o with Some _ => _ | None => _ end] => destruct o
           end; auto; discriminate.
Qed.

(** C2. Send, reply and create-draft invoked with both bodies absent return
    the validation error object, whose only field is [error], and leave the
    state as it was: no call reaches the service client and nothing is
    logged. The error object is returned once the bearer token has been
    extracted; without a token the handler raises 401, the state again
    untouched. *)
Theorem absent_bodies_validation_error {World : Type} (V : Validation)
    (new_GmailService : TokenInfo.t -> GmailService World)
    (ctx : option Context) (t : Tool) (st : State World) :
  bodies_absent t = true ->
  new_calls st (snd (run_tool V new_GmailService ctx t st)) = []
  /\ snd (run_tool V new_GmailService ctx t st) = st
  /\ forall token, get_access_token ctx = inr token ->
       fst (run_tool V new_GmailService ctx t st)
       = Return (dumps (JObj [("error",
                               JStr "Either body_text or body_html must be provided")])
                   None).
Proof.
  intros H. apply bodies_absent_missing in H.
  destruct (missing_bodies_stop V new_GmailService ctx t st H) as [Hst Hret].
  rewrite Hst. split; [apply new_calls_same | split; [reflexivity | exact Hret]].
Qed.

Lemma absent_bodies_validation_error_witness :
  bodies_absent (ReplyToEmail "m1" None None true) = true
  /\ get_access_token Demo.ctx = inr "token"
  /\ run_tool Demo.accept_all (Demo.service None true) Demo.ctx
       (ReplyToEmail "m1" None None true) Demo.start
     = (Return (dumps (JObj [("error",
                              JStr "Either body_text or body_html must be provided")])
                  None),
        Demo.start).
Proof.
  split; [reflexivity | split; [reflexivity|]].
  destruct (absent_bodies_validation_error Demo.accept_all (Demo.service None true)
              Demo.ctx (ReplyToEmail "m1" None None true) Demo.start eq_refl)
    as (_ & Hst & Hret).
  rewrite (surjective_pairing (run_tool _ _ _ _ _)).
  rewrite Hst, (Hret "token" eq_refl). reflexivity.
Defined.

(** The request the move handler builds is the one the specification
    describes. *)
Lemma move_request_built (folder_label_id : string) (remove_inbox : bool) :
  ModifyLabelsRequest.mk (Given (Some [folder_label_id]))
    (Given (list_or_none
              (if remove_inbox && negb (existsb (String.eqb folder_label_id) ["INBOX"])
               then ([] ++ ["INBOX"])%list else [])))
  = move_request folder_label_id remove_inbox.
Proof.
  unfold move_request. simpl. rewrite orb_false_r.
  destruct remove_inbox, (String.eqb folder_label_id "INBOX"); reflexivity.
Qed.

(** C7. A move sends at most one label modification, and it is the one that
    adds exactly the target label and removes [INBOX] unless the target is
    [INBOX] or [remove_inbox] is false; with a token and an accepted request
    that call is made. A move to [INBOX] never asks to remove [INBOX]. *)
Theorem gmail_move_to_folder_labels {World : Type} (V : Validation)
    (new_GmailService : TokenInfo.t -> GmailService World)
    (ctx : option Context) (message_id folder_label_id : string) (remove_inbox : bool)
    (st : State World) :
  let st' := snd (gmail_move_to_folder V new_GmailService ctx message_id
                    folder_label_id remove_inbox st) in
  let request := move_request folder_label_id remove_inbox in
  (forall ev, In ev (new_calls st st') ->
              call ev = CallModifyMessageLabels message_id request)
  /\ (forall token,
         get_access_token ctx = inr token ->
         check_ModifyLabelsRequest V request = None ->
         exists r, new_calls st st'
                   = [mkCallEvent (CallModifyMessageLabels message_id request) r])
  /\ ModifyLabelsRequest.add_label_ids request = Given (Some [folder_label_id])
  /\ (ModifyLabelsRequest.remove_label_ids request = Given (Some ["INBOX"])
      <-> remove_inbox = true /\ folder_label_id <> "INBOX")
  /\ (forall flag, ModifyLabelsRequest.remove_label_ids (move_request "INBOX" flag)
                   = Given None).
Proof.
  intros st' request. subst st'.
  unfold gmail_move_to_folder, authorized, try_except, bind, await, construct, ret,
    logger_error.
  rewrite move_request_built. fold request.
  split; [| split; [| split; [reflexivity | split]]].
  - destruct (get_access_token ctx) as [e|token].
    + trace. intros ev [].
    + destruct (check_ModifyLabelsRequest V request).
      * trace. intros ev [].
      * destruct (modify_message_labels _ _ message_id request (world st)) as [[e|m] w];
          trace; intros ev [<-|[]]; reflexivity.
  - intros token Htok Hcheck. rewrite Htok, Hcheck.
    destruct (modify_message_labels _ _ message_id request (world st)) as [[e|m] w];
      trace; eauto.
  - unfold request, move_request. simpl.
    destruct (String.eqb folder_label_id "INBOX") eqn:E, remove_inbox; simpl;
      (split; [intros H; try discriminate | intros [H1 H2]; try discriminate]).
    + apply String.eqb_eq in E. contradiction.
    + apply String.eqb_neq in E. auto.
    + reflexivity.
  - intros []; reflexivity.
Qed.

Lemma gmail_move_to_folder_labels_witness :
  get_access_token Demo.ctx = inr "token"
  /\ exists r,
       new_calls Demo.start
         (snd (gmail_move_to_folder Demo.accept_all (Demo.service None true) Demo.ctx
                 "m1" "TRASH" true Demo.start))
       = [mkCallEvent
            (CallModifyMessageLabels "m1"
               (ModifyLabelsRequest.mk (Given (Some ["TRASH"])) (Given (Some ["INBOX"]))))
            r].
Proof.
  split; [reflexivity|].
  destruct (gmail_move_to_folder_labels Demo.accept_all (Demo.service None true) Demo.ctx
              "m1" "TRASH" true Demo.start) as (_ & H & _).
  exact (H "token" eq_refl eq_refl).
Defined.

(** C8. Without an attachment id ([None] or the empty string) the handler
    fetches the parent message, makes no other call and returns the dump of
    every attachment of the message with their count; with an id it makes the
    single [get_attachment] call and returns the dump of that one
    attachment. *)
Theorem gmail_get_attachments_branches {World : Type}
    (new_GmailService : TokenInfo.t -> GmailService World)
    (ctx : option Context) (message_id token : string) (st : State World) :
  get_access_token ctx = inr token ->
  let gmail_service := get_gmail_service new_GmailService token in
  (forall attachment_id message w,
      PyStr.truthy attachment_id = false ->
      get_message _ gmail_service message_id (world st) = (inr message, w) ->
      gmail_get_attachments new_GmailService ctx message_id attachment_id st
      = (Return (dumps (JObj [("success", JBool true);
                              ("message_id", JStr message_id);
                              ("attachments",
                               JList (map AttachmentInfo.model_dump
                                        (Message.attachments message)));
                              ("count",
                               JInt (Z.of_nat (List.length (Message.attachments message))));
                              ("message",
                               JStr ("Found "
                                     ++ PyStr.str_of_nat
                                          (List.length (Message.attachments message))
                                     ++ " attachments"))])
                   (Some 2)),
         mkState w (calls st ++ [mkCallEvent (CallGetMessage message_id) None]) (logs st)))
  /\ (forall attachment_id attachment w,
         attachment_id <> "" ->
         get_attachment _ gmail_service message_id attachment_id (world st)
         = (inr attachment, w) ->
         gmail_get_attachments new_GmailService ctx message_id (Some attachment_id) st
         = (Return (dumps (JObj [("success", JBool true);
                                 ("attachment", Attachment.model_dump attachment);
                                 ("message",
                                  JStr ("Attachment " ++ attachment_id
                                        ++ " downloaded successfully"))])
                      (Some 2)),
            mkState w
              (calls st ++ [mkCallEvent (CallGetAttachment message_id attachment_id) None])
              (logs st))).
Proof.
  intros Htok gmail_service. split.
  - intros attachment_id message w Hfalsy Hget.
    unfold gmail_get_attachments, authorized, try_except, bind, await, ret.
    rewrite Htok. fold gmail_service.
    destruct attachment_id as [[|c s]|]; try discriminate; rewrite Hget; reflexivity.
  - intros attachment_id attachment w Hne Hget.
    unfold gmail_get_attachments, authorized, try_except, bind, await, ret.
    rewrite Htok. fold gmail_service.
    destruct attachment_id as [|c s]; [congruence|]. rewrite Hget. reflexivity.
Qed.

Lemma gmail_get_attachments_branches_witness :
  get_access_token Demo.ctx = inr "token"
  /\ gmail_get_attachments (Demo.service None true) Demo.ctx "m1" None Demo.start
     = (Return (dumps (JObj [("success", JBool true);
                             ("message_id", JStr "m1");
                             ("attachments",
                              JList [JObj [("filename", JStr "a.txt")];
                                     JObj [("filename", JStr "b.txt")]]);
                             ("count", JInt 2);
                             ("message", JStr "Found 2 attachments")])
                  (Some 2)),
        mkState tt [mkCallEvent (CallGetMessage "m1") None] [])
  /\ gmail_get_attachments (Demo.service None true) Demo.ctx "m1" (Some "a7") Demo.start
     = (Return (dumps (JObj [("success", JBool true);
                             ("attachment", JObj [("data", JStr "AAAA")]);
                             ("message", JStr "Attachment a7 downloaded successfully")])
                  (Some 2)),
        mkState tt [mkCallEvent (CallGetAttachment "m1" "a7") None] []).
Proof.
  destruct (gmail_get_attachments_branches (Demo.service None true) Demo.ctx "m1" "token"
              Demo.start eq_refl) as [Hall Hone].
  split; [reflexivity | split].
  - exact (Hall None (Demo.message None) tt eq_refl eq_refl).
  - refine (Hone "a7" _ tt _ eq_refl). discriminate.
Defined.

(** *** Reply *)

(** The run of a reply whose bodies pass the validation and whose original
    message is fetched: one request is built, and it is sent unless its
    constructor raises. *)
Lemma reply_outcome {World : Type} (V : Validation)
    (new_GmailService : TokenInfo.t -> GmailService World)
    (ctx : option Context) (message_id : string) (body_text body_html : option string)
    (reply_all : bool) (st : State World) (token : string) (original : Message.t)
    (w : World) :
  get_access_token ctx = inr token ->
  PyStr.truthy body_text || PyStr.truthy body_html = true ->
  get_message _ (get_gmail_service new_GmailService token) message_id (world st)
  = (inr original, w) ->
  let subject := match Message.subject original with Some s => s | None => "" end in
  let request :=
    SendEmailRequest.mk (Some (reply_recipients original))
      (if String.prefix "Re:" subject then subject else "Re: " ++ subject)
      body_text body_html Omitted Omitted Omitted
      (Given (Message.thread_id original)) (Given (Some message_id)) in
  let got := mkCallEvent (CallGetMessage message_id) None in
  gmail_reply_to_email V new_GmailService ctx message_id body_text body_html reply_all st
  = match check_SendEmailRequest V request with
    | Some e =>
        (Return (error_envelope e),
         mkState w (calls st ++ [got]) (logs st ++ ["Error in reply_to_email: " ++ e]))
    | None =>
        match send_message _ (get_gmail_service new_GmailService token) request w with
        | (inl e, w') =>
            (Return (error_envelope e),
             mkState w' ((calls st ++ [got]) ++ [mkCallEvent (CallSendMessage request) (Some e)])
               (logs st ++ ["Error in reply_to_email: " ++ e]))
        | (inr reply_message_id, w') =>
            (Return (dumps (JObj [("success", JBool true);
                                  ("reply_message_id", JStr reply_message_id);
                                  ("original_message_id", JStr message_id);
                                  ("message", JStr "Reply sent successfully")])
                       (Some 2)),
             mkState w' ((calls st ++ [got]) ++ [mkCallEvent (CallSendMessage request) None])
               (logs st))
        end
    end.
Proof.
  intros Htok Hbody Hget subject request got.
  assert (Hif : negb (PyStr.truthy body_text) && negb (PyStr.truthy body_html) = false).
  { destruct (PyStr.truthy body_text), (PyStr.truthy body_html); simpl in *; congruence. }
  unfold gmail_reply_to_email, authorized, try_except, bind, await, construct, ret,
    logger_error.
  rewrite Htok, Hif, Hget. cbn [world calls logs].
  assert (Hreq :
    SendEmailRequest.mk
      (Some match Message.sender original with
            | Some (String c s) => [String c s]
            | _ => []
            end)
      (if negb (PyStr.startswith
                  match Message.subject original with
                  | Some (String c s) => String c s
                  | _ => ""
                  end "Re:")
       then "Re: " ++ match Message.subject original with
                      | Some (String c s) => String c s
                      | _ => ""
                      end
       else match Message.subject original with
            | Some (String c s) => String c s
            | _ => ""
            end)
      body_text body_html Omitted Omitted Omitted
      (Given (Message.thread_id original)) (Given (Some message_id))
    = request).
  { subst request subject. unfold reply_recipients, PyStr.startswith.
    destruct (Message.sender original) as [[|c s]|],
             (Message.subject original) as [[|c' s']|];
      try reflexivity;
      destruct (String.prefix "Re:" (String c' s')); reflexivity. }
  destruct (reply_all && PyStr.truthy (Message.recipient original));
    rewrite Hreq;
    (destruct (check_SendEmailRequest V request); [reflexivity|]);
    cbn [world calls logs];
    destruct (send_message _ _ request w) as [[e|mid] w']; reflexivity.
Qed.

(** C10. The request a reply sends has the sender of the original message
    as its only recipient (no recipient when the original has no sender),
    and the handler does the same whatever [reply_all] is: same response,
    same calls, same log. *)
Theorem gmail_reply_to_email_recipients {World : Type} (V : Validation)
    (new_GmailService : TokenInfo.t -> GmailService World)
    (ctx : option Context) (message_id : string) (body_text body_html : option string)
    (st : State World) :
  (forall reply_all,
      gmail_reply_to_email V new_GmailService ctx message_id body_text body_html reply_all st
      = gmail_reply_to_email V new_GmailService ctx message_id body_text body_html false st)
  /\ forall token original w,
       get_access_token ctx = inr token ->
       PyStr.truthy body_text || PyStr.truthy body_html = true ->
       get_message _ (get_gmail_service new_GmailService token) message_id (world st)
       = (inr original, w) ->
       exists request,
         SendEmailRequest.to request
         = Some match Message.sender original with
                | None => []
                | Some s => if String.eqb s "" then [] else [s]
                end
         /\ forall reply_all,
              let st' := snd (gmail_reply_to_email V new_GmailService ctx message_id
                                body_text body_html reply_all st) in
              match check_SendEmailRequest V request with
              | Some _ => new_calls st st' = [mkCallEvent (CallGetMessage message_id) None]
              | None =>
                  exists r, new_calls st st'
                            = [mkCallEvent (CallGetMessage message_id) None;
                               mkCallEvent (CallSendMessage request) r]
              end.
Proof.
  split.
  - intros reply_all.
    unfold gmail_reply_to_email, authorized, try_except, bind, await, construct, ret.
    destruct (get_access_token ctx); [reflexivity|].
    destruct (negb (PyStr.truthy body_text) && negb (PyStr.truthy body_html));
      [reflexivity|].
    destruct (get_message _ _ message_id (world st)) as [[e|original] w]; [reflexivity|].
    destruct reply_all; [|reflexivity].
    destruct (PyStr.truthy (Message.recipient original)); reflexivity.
  - intros token original w Htok Hbody Hget.
    eexists. split; [| intros reply_all st'; subst st';
      rewrite (reply_outcome V new_GmailService ctx message_id body_text body_html
                 reply_all st token original w Htok Hbody Hget)].
    2: { match goal with
         | |- match ?c with _ => _ end => destruct c eqn:Hc
         end.
         - rewrite Hc. trace. reflexivity.
         - rewrite Hc. destruct (send_message _ _ _ w) as [[e|mid] w']; trace; eauto. }
    reflexivity.
Qed.

Lemma gmail_reply_to_email_recipients_witness :
  get_access_token Demo.ctx = inr "token"
  /\ exists request,
       SendEmailRequest.to request = Some ["ann@x.com"]
       /\ exists r,
            new_calls Demo.start
              (snd (gmail_reply_to_email Demo.accept_all (Demo.service (Some "Hello") true)
                      Demo.ctx "m1" (Some "hi") None true Demo.start))
            = [mkCallEvent (CallGetMessage "m1") None;
               mkCallEvent (CallSendMessage request) r].
Proof.
  split; [reflexivity|].
  destruct (proj2 (gmail_reply_to_email_recipients Demo.accept_all
                     (Demo.service (Some "Hello") true) Demo.ctx "m1" (Some "hi") None
                     Demo.start)
              "token" (Demo.message (Some "Hello")) tt eq_refl eq_refl eq_refl)
    as (request & Hto & Hsent).
  exists request. split; [exact Hto | exact (Hsent true)].
Defined.

Lemma prefix_of_longer (a b s : string) :
  String.prefix (a ++ b) s = true -> String.prefix a s = true.
Proof.
  revert s. induction a as [|x a IH]; intros s.
  - destruct s; reflexivity.
  - destruct s as [|y s]; simpl; [discriminate|].
    destruct (ascii_dec x y); [apply IH | discriminate].
Qed.

(** The subject [Re:Hello] does not start with [Re: ], so the rule as worded
    asks for [Re: Re:Hello]; the reply is sent with [Re:Hello]. *)
Lemma reply_subject_without_space_kept :
  String.prefix "Re: " "Re:Hello" = false
  /\ subject_with_prefix "Re:Hello" = "Re: Re:Hello"
  /\ gmail_reply_to_email Demo.accept_all (Demo.service (Some "Re:Hello") true)
       Demo.ctx "m1" (Some "hi") None false Demo.start
     = (Return (dumps (JObj [("success", JBool true);
                             ("reply_message_id", JStr "m2");
                             ("original_message_id", JStr "m1");
                             ("message", JStr "Reply sent successfully")])
                  (Some 2)),
        mkState tt
          [mkCallEvent (CallGetMessage "m1") None;
           mkCallEvent
             (CallSendMessage
                (SendEmailRequest.mk (Some ["ann@x.com"]) "Re:Hello" (Some "hi") None
                   Omitted Omitted Omitted (Given (Some "t1")) (Given (Some "m1"))))
             None]
          []).
Proof. repeat split; reflexivity. Qed.

(** C6, amended. The subject of the request a reply sends is the original
    subject (the empty string when there is none) left as it is when it
    starts with [Re:], with or without a following space, and prefixed with
    [Re: ] otherwise. It is the subject of the rule as worded whenever the
    original starts with [Re: ] or does not start with [Re:]. *)
Theorem gmail_reply_to_email_subject {World : Type} (V : Validation)
    (new_GmailService : TokenInfo.t -> GmailService World)
    (ctx : option Context) (message_id : string) (body_text body_html : option string)
    (st : State World) (token : string) (original : Message.t) (w : World) :
  get_access_token ctx = inr token ->
  PyStr.truthy body_text || PyStr.truthy body_html = true ->
  get_message _ (get_gmail_service new_GmailService token) message_id (world st)
  = (inr original, w) ->
  let subject := match Message.subject original with Some s => s | None => "" end in
  exists request,
    SendEmailRequest.subject request
    = (if String.prefix "Re:" subject then subject else "Re: " ++ subject)
    /\ (String.prefix "Re: " subject = true \/ String.prefix "Re:" subject = false ->
        SendEmailRequest.subject request = subject_with_prefix subject)
    /\ forall reply_all,
         let st' := snd (gmail_reply_to_email V new_GmailService ctx message_id
                           body_text body_html reply_all st) in
         match check_SendEmailRequest V request with
         | Some _ => new_calls st st' = [mkCallEvent (CallGetMessage message_id) None]
         | None =>
             exists r, new_calls st st'
                       = [mkCallEvent (CallGetMessage message_id) None;
                          mkCallEvent (CallSendMessage request) r]
         end.
Proof.
  intros Htok Hbody Hget subject.
  eexists. split; [| split]; cycle 2.
  - intros reply_all st'. subst st'.
    rewrite (reply_outcome V new_GmailService ctx message_id body_text body_html
               reply_all st token original w Htok Hbody Hget).
    match goal with
    | |- match ?c with _ => _ end => destruct c eqn:Hc
    end.
    + rewrite Hc. trace. reflexivity.
    + rewrite Hc. destruct (send_message _ _ _ w) as [[e|mid] w']; trace; eauto.
  - reflexivity.
  - cbn [SendEmailRequest.subject]. fold subject. unfold subject_with_prefix.
    intros [H|H].
    + rewrite H. now rewrite (prefix_of_longer "Re:" " " subject H).
    + rewrite H. destruct (String.prefix "Re: " subject) eqn:H'; [|reflexivity].
      apply (prefix_of_longer "Re:" " ") in H'. congruence.
Qed.

Lemma gmail_reply_to_email_subject_witness :
  get_access_token Demo.ctx = inr "token"
  /\ (exists request,
        SendEmailRequest.subject request = "Re: Hello"
        /\ exists r,
             new_calls Demo.start
               (snd (gmail_reply_to_email Demo.accept_all (Demo.service (Some "Hello") true)
                       Demo.ctx "m1" (Some "hi") None false Demo.start))
             = [mkCallEvent (CallGetMessage "m1") None;
                mkCallEvent (CallSendMessage request) r])
  /\ (exists request,
        SendEmailRequest.subject request = "Re: Hello"
        /\ exists r,
             new_calls Demo.start
               (snd (gmail_reply_to_email Demo.accept_all
                       (Demo.service (Some "Re: Hello") true)
                       Demo.ctx "m1" (Some "hi") None false Demo.start))
             = [mkCallEvent (CallGetMessage "m1") None;
                mkCallEvent (CallSendMessage request) r]).
Proof.
  split; [reflexivity | split].
  - destruct (gmail_reply_to_email_subject Demo.accept_all
                (Demo.service (Some "Hello") true) Demo.ctx "m1" (Some "hi") None
                Demo.start "token" (Demo.message (Some "Hello")) tt
                eq_refl eq_refl eq_refl)
      as (request & Hsubject & _ & Hsent).
    exists request. split; [exact Hsubject | exact (Hsent false)].
  - destruct (gmail_reply_to_email_subject Demo.accept_all
                (Demo.service (Some "Re: Hello") true) Demo.ctx "m1" (Some "hi") None
                Demo.start "token" (Demo.message (Some "Re: Hello")) tt
                eq_refl eq_refl eq_refl)
      as (request & Hsubject & _ & Hsent).
    exists request. split; [exact Hsubject | exact (Hsent false)].
Defined.

(** *** Every handler *)

(** Runs a handler symbolically: case analysis on the token, on every
    validation and on every service call. *)
Ltac run_cases :=
  repeat first
    [ progress cbn [fst snd world calls logs] in *
    | case_step ].

Ltac trace_in H :=
  unfold new_calls in H; cbn [calls snd fst] in H;
  rewrite ?skipn_length_self, ?skipn_length_app2, ?skipn_length_app in H;
  cbn [app In] in H.

(** C5, amended. When a call on the service client raises, every handler
    logs the exception. Send-email then raises a 500 fault carrying the
    text of the exception. Every other handler returns, with indent 2, an
    object whose [error] field is that text; for every handler other than
    thread-listing and draft-listing the object is exactly
    [{error, success: false}]. *)
Theorem service_exception_is_reported {World : Type} (V : Validation)
    (new_GmailService : TokenInfo.t -> GmailService World)
    (ctx : option Context) (t : Tool) (st : State World) (c : Call) (e : exn) :
  In (mkCallEvent c (Some e))
     (new_calls st (snd (run_tool V new_GmailService ctx t st))) ->
  logs (snd (run_tool V new_GmailService ctx t st))
  = (logs st ++ [error_log_line t e])%list
  /\ if is_send_email t
     then fst (run_tool V new_GmailService ctx t st)
          = Raise (mkHTTPException 500%Z ("Failed to send email: " ++ e))
     else exists p,
         fst (run_tool V new_GmailService ctx t st) = Return (dumps p (Some 2))
         /\ Json.field "error" p = Some (JStr e)
         /\ (is_listing t = false ->
             p = JObj [("error", JStr e); ("success", JBool false)]).
Proof.
  intros H.
  destruct t; unfold_handlers; cbn [is_send_email is_listing error_log_line];
    run_cases; trace_in H;
    repeat match goal with
           | H : _ \/ _ |- _ => destruct H
           | H : False |- _ => destruct H
           | H : mkCallEvent _ _ = mkCallEvent _ _ |- _ => inversion H; clear H; subst
           end;
    (split; [reflexivity |]);
    try reflexivity;
    eexists; (split; [reflexivity | split; [reflexivity | intros; first [reflexivity | discriminate]]]).
Qed.

(** The draft-listing handler answers an exception of the service client
    with an object that has no [success] field. *)
Lemma get_drafts_exception_without_success :
  is_send_email (GetDrafts 10 None COMPACT None None None) = false
  /\ run_tool Demo.accept_all Demo.failing Demo.ctx
       (GetDrafts 10 None COMPACT None None None) Demo.start
     = (Return (dumps (JObj [("error", JStr "boom")]) (Some 2)),
        mkState tt
          [mkCallEvent
             (CallListDrafts (DraftListRequest.mk 10 None COMPACT None None None))
             (Some "boom")]
          ["Error in get_drafts: boom"])
  /\ Json.field "success" (JObj [("error", JStr "boom")]) = None.
Proof. repeat split; reflexivity. Qed.

Lemma service_exception_is_reported_witness :
  In (mkCallEvent (CallForwardMessage "m1"
                     (ForwardEmailRequest.mk (Some ["b@x.com"]) None None None))
        (Some "boom"))
     (new_calls Demo.start
        (snd (run_tool Demo.accept_all Demo.failing Demo.ctx
                (ForwardEmail "m1" "b@x.com" None None None) Demo.start)))
  /\ logs (snd (run_tool Demo.accept_all Demo.failing Demo.ctx
                  (ForwardEmail "m1" "b@x.com" None None None) Demo.start))
     = ["Error in forward_email: boom"]
  /\ exists p,
       fst (run_tool Demo.accept_all Demo.failing Demo.ctx
              (ForwardEmail "m1" "b@x.com" None None None) Demo.start)
       = Return (dumps p (Some 2))
       /\ Json.field "error" p = Some (JStr "boom")
       /\ (false = false -> p = JObj [("error", JStr "boom"); ("success", JBool false)]).
Proof.
  assert (H : In (mkCallEvent (CallForwardMessage "m1"
                                 (ForwardEmailRequest.mk (Some ["b@x.com"]) None None None))
                    (Some "boom"))
                 (new_calls Demo.start
                    (snd (run_tool Demo.accept_all Demo.failing Demo.ctx
                            (ForwardEmail "m1" "b@x.com" None None None) Demo.start))))
    by (left; reflexivity).
  split; [exact H|].
  exact (service_exception_is_reported Demo.accept_all Demo.failing Demo.ctx
           (ForwardEmail "m1" "b@x.com" None None None) Demo.start _ _ H).
Defined.

(** Failure responses that lack one of the two fields: the error branch of
    thread-listing and the validation response of reply have no [success]
    field, the delete handler's answer to a false result has no [error]
    field. *)
Lemma failure_responses_lacking_a_field :
  (is_send_email (GetThreads 10 None None false None None None) = false
   /\ fst (run_tool Demo.accept_all Demo.failing Demo.ctx
             (GetThreads 10 None None false None None None) Demo.start)
      = Return (dumps (JObj [("error", JStr "boom")]) (Some 2))
   /\ reports_failure (JObj [("error", JStr "boom")]) = true
   /\ Json.field "success" (JObj [("error", JStr "boom")]) = None)
  /\ (fst (run_tool Demo.accept_all (Demo.service None true) Demo.ctx
             (ReplyToEmail "m1" None None false) Demo.start)
      = Return (dumps (JObj [("error",
                              JStr "Either body_text or body_html must be provided")])
                  None)
      /\ Json.field "success"
           (JObj [("error", JStr "Either body_text or body_html must be provided")])
         = None)
  /\ (fst (run_tool Demo.accept_all (Demo.service None false) Demo.ctx
             (DeleteEmail "m1") Demo.start)
      = Return (dumps (JObj [("success", JBool false);
                             ("message_id", JStr "m1");
                             ("message", JStr "Failed to delete email")])
                  (Some 2))
      /\ Json.has_key "error"
           (JObj [("success", JBool false);
                  ("message_id", JStr "m1");
                  ("message", JStr "Failed to delete email")])
         = false).
Proof. repeat split; reflexivity. Qed.

(** C1, amended. A returned object that reports a failure (it carries an
    [error] field or [success: false]) carries an [error] field, unless it
    is the delete handler's answer to a false result, which is
    [{success: false, message_id, message}]. It also carries
    [success: false] when it comes from a handler other than send-email,
    thread-listing and draft-listing and is not the answer to a call with
    no usable body. *)
Theorem failure_response_fields {World : Type} (V : Validation)
    (new_GmailService : TokenInfo.t -> GmailService World)
    (ctx : option Context) (t : Tool) (st : State World) :
  forall text,
    fst (run_tool V new_GmailService ctx t st) = Return text ->
    reports_failure (payload text) = true ->
    (Json.has_key "error" (payload text) = true
     \/ exists message_id,
         t = DeleteEmail message_id
         /\ payload text = JObj [("success", JBool false);
                                 ("message_id", JStr message_id);
                                 ("message", JStr "Failed to delete email")])
    /\ (is_send_email t = false -> is_listing t = false -> bodies_missing t = false ->
        Json.field "success" (payload text) = Some (JBool false)).
Proof.
  destruct t; unfold_handlers; cbn [is_send_email is_listing bodies_missing];
    run_cases;
    intros text Hret Hfail;
    inversion Hret; subst text; clear Hret;
    cbn [payload missing_body error_envelope] in *;
    try (vm_compute in Hfail; discriminate Hfail);
    (split; [first [left; reflexivity | right; eexists; split; reflexivity]
            | intros; first [reflexivity | discriminate]]).
Qed.

Lemma failure_response_fields_witness :
  fst (run_tool Demo.accept_all Demo.failing Demo.ctx
         (ForwardEmail "m1" "b@x.com" None None None) Demo.start)
  = Return (error_envelope "boom")
  /\ reports_failure (payload (error_envelope "boom")) = true
  /\ (Json.has_key "error" (payload (error_envelope "boom")) = true
      \/ exists message_id,
          ForwardEmail "m1" "b@x.com" None None None = DeleteEmail message_id
          /\ payload (error_envelope "boom")
             = JObj [("success", JBool false);
                     ("message_id", JStr message_id);
                     ("message", JStr "Failed to delete email")])
  /\ (false = false -> false = false -> false = false ->
      Json.field "success" (payload (error_envelope "boom")) = Some (JBool false)).
Proof.
  split; [reflexivity | split; [reflexivity|]].
  exact (failure_response_fields Demo.accept_all Demo.failing Demo.ctx
           (ForwardEmail "m1" "b@x.com" None None None) Demo.start
           (error_envelope "boom") eq_refl eq_refl).
Defined.

(** ** Sanity checks of the built-ins and of the encoder *)

Example replace_all_occurrences : PyStr.replace "aaa" "aa" "b" = "ba".
Proof. reflexivity. Qed.

Example replace_empty_pattern : PyStr.replace "ab" "" "-" = "-a-b-".
Proof. reflexivity. Qed.

Example strip_both_sides : PyStr.strip (String "009" "  a b  ") = "a b".
Proof. reflexivity. Qed.

Example split_keeps_empty_segments :
  PyStr.split "," ",a,,b," = [""; "a"; ""; "b"; ""] /\ PyStr.split "," "" = [""].
Proof. split; reflexivity. Qed.

Example text_of_missing_body :
  Json.text missing_body
  = "{" ++ String "034" "error" ++ String "034" ": "
        ++ String "034" "Either body_text or body_html must be provided"
        ++ String "034" "}".
Proof. reflexivity. Qed.

Example text_of_error_envelope :
  Json.text (error_envelope "boom")
  = "{" ++ String "010" "  " ++ String "034" "error" ++ String "034" ": "
        ++ String "034" "boom" ++ String "034" ","
        ++ String "010" "  " ++ String "034" "success" ++ String "034" ": false"
        ++ String "010" "}".
Proof. reflexivity. Qed.

(** * Further properties *)

(** ** dependencies.py *)




Lemma comma_free_app (a b : string) :
  Normalization.comma_free (a ++ b)
  = Normalization.comma_free a && Normalization.comma_free b.
Proof.
  induction a as [|c a IH]; simpl; [reflexivity|].
  rewrite IH. now rewrite andb_assoc.
Qed.

Lemma strip_idempotent (s : string) : PyStr.strip (PyStr.strip s) = PyStr.strip s.
Proof.
  destruct (strip_trimmed s) as (l & r & _ & _ & _ & Hst & He).
  unfold PyStr.strip at 1. rewrite (lstrip_id _ Hst). now apply rstrip_id.
Qed.

Lemma strip_comma_free (s : string) :
  Normalization.comma_free s = true -> Normalization.comma_free (PyStr.strip s) = true.
Proof.
  destruct (strip_trimmed s) as (l & r & Hs & _). intros H.
  rewrite Hs in H. rewrite !comma_free_app in H.
  apply andb_true_iff in H as [_ H]. now apply andb_true_iff in H as [H _].
Qed.

Lemma split_length (s : string) :
  List.length (PyStr.split "," s) = S (count_commas s).
Proof.
  induction s as [|c s IH]; simpl; [reflexivity|].
  destruct (Ascii.eqb c ","); simpl.
  - now rewrite IH.
  - destruct (PyStr.split "," s); simpl in *; [discriminate | exact IH].
Qed.

(** What [parse_comma_separated_list] returns when it returns a list. *)
Lemma parsed_list (v : string) (l : list string) :
  parse_comma_separated_list (Some v) = Some l ->
  PyStr.all_space v = false
  /\ l = map PyStr.strip
           (filter (fun item => PyStr.nonempty (PyStr.strip item)) (PyStr.split "," v)).
Proof.
  simpl. destruct (String.eqb (PyStr.strip v) "") eqn:E; [discriminate|].
  intros [= <-]. split; [|reflexivity].
  destruct (PyStr.all_space v) eqn:Hb; [|reflexivity].
  apply strip_empty_iff in Hb. rewrite Hb in E. discriminate.
Qed.

Lemma parsed_entries (v : string) (l : list string) :
  parse_comma_separated_list (Some v) = Some l -> Forall is_entry l.
Proof.
  intros H. apply parsed_list in H as [_ ->].
  apply Forall_forall. intros x Hx.
  apply in_map_iff in Hx as (seg & <- & Hseg).
  apply filter_In in Hseg as [Hin Hne].
  repeat split.
  - intros E. rewrite E in Hne. discriminate.
  - apply strip_idempotent.
  - apply strip_comma_free.
    exact (proj1 (Forall_forall _ _) (split_comma_free v) seg Hin).
Qed.

(** X2. Every entry of a normalized list is non-empty, free of surrounding
    whitespace and free of commas; the list has at most one entry more than
    the input has commas, and a list is returned only for an input that is
    not blank. *)
Theorem parse_comma_separated_list_entries (v : string) (l : list string) :
  parse_comma_separated_list (Some v) = Some l ->
  Forall (fun x => x <> ""
                   /\ Normalization.starts_with_space x = false
                   /\ Normalization.ends_with_space x = false
                   /\ Normalization.comma_free x = true) l
  /\ List.length l <= S (count_commas v)
  /\ PyStr.all_space v = false.
Proof.
  intros H. pose proof (parsed_entries v l H) as He.
  apply parsed_list in H as [Hb Hl]. split; [| split; [| exact Hb]].
  - apply Forall_forall. intros x Hx.
    destruct (proj1 (Forall_forall _ _) He x Hx) as (Hne & Hs & Hc).
    destruct (strip_trimmed x) as (a & b & _ & _ & _ & Hst & Hen).
    rewrite Hs in Hst, Hen. auto.
  - rewrite Hl, length_map, <- split_length. apply filter_length_le.
Qed.

Lemma parse_comma_separated_list_entries_witness :
  parse_comma_separated_list (Some " a , b,,c ") = Some ["a"; "b"; "c"]
  /\ List.length ["a"; "b"; "c"] <= S (count_commas " a , b,,c ")
  /\ PyStr.all_space " a , b,,c " = false.
Proof.
  split; [reflexivity|].
  exact (proj2 (parse_comma_separated_list_entries " a , b,,c " ["a"; "b"; "c"] eq_refl)).
Defined.

Lemma split_other_char (c : ascii) (s : string) :
  Ascii.eqb c "," = false ->
  PyStr.split "," (String c s)
  = match PyStr.split "," s with
    | seg :: segs => String c seg :: segs
    | [] => [String c ""]
    end.
Proof. intros H. simpl. now rewrite H. Qed.

(** Splitting what [", ".join] built: every entry but the first comes back
    with the space in front. *)
Lemma split_joined_with_space (x : string) (xs : list string) :
  Forall (fun y => Normalization.comma_free y = true) (x :: xs) ->
  PyStr.split "," (String.concat ", " (x :: xs)) = x :: map (String " ") xs.
Proof.
  revert x. induction xs as [|y ys IH]; intros x H.
  - simpl. apply split_single. now inversion H.
  - inversion H as [|? ? Hx Hrest]; subst.
    change (String.concat ", " (x :: y :: ys))
      with (x ++ String "," (String " " (String.concat ", " (y :: ys)))).
    rewrite (split_app _ _ Hx), split_other_char by reflexivity.
    now rewrite (IH y Hrest).
Qed.

Lemma split_joined (x : string) (xs : list string) :
  Forall (fun y => Normalization.comma_free y = true) (x :: xs) ->
  PyStr.split "," (String.concat "," (x :: xs)) = x :: xs.
Proof.
  intros H. symmetry. apply segments_unique.
  repeat split; [discriminate | exact H].
Qed.

Lemma strip_after_space (y : string) : PyStr.strip (String " " y) = PyStr.strip y.
Proof. reflexivity. Qed.

Lemma entries_kept (l : list string) :
  Forall is_entry l ->
  map PyStr.strip (filter (fun item => PyStr.nonempty (PyStr.strip item)) l) = l
  /\ map PyStr.strip
       (filter (fun item => PyStr.nonempty (PyStr.strip item)) (map (String " ") l))
     = l.
Proof.
  induction 1 as [|x l (Hne & Hs & _) _ [IH1 IH2]]; [split; reflexivity|].
  cbn [map filter]. rewrite strip_after_space, Hs.
  destruct x; [congruence|]. cbn [PyStr.nonempty map].
  rewrite strip_after_space, Hs, IH1, IH2. split; reflexivity.
Qed.

Lemma entry_not_blank (x s : string) : is_entry x -> PyStr.all_space (x ++ s) = false.
Proof.
  intros (Hne & Hs & _).
  destruct (strip_trimmed x) as (_ & _ & _ & _ & _ & Hst & _). rewrite Hs in Hst.
  destruct x as [|c x]; [congruence|]. simpl in *. now rewrite Hst.
Qed.

Lemma joined_not_blank (sep x : string) (xs : list string) :
  is_entry x -> PyStr.all_space (String.concat sep (x :: xs)) = false.
Proof.
  intros H. destruct xs as [|y ys].
  - simpl. rewrite <- (append_empty_r x). now apply entry_not_blank.
  - change (String.concat sep (x :: y :: ys))
      with (x ++ sep ++ String.concat sep (y :: ys)).
    now apply entry_not_blank.
Qed.

Lemma entries_comma_free (l : list string) :
  Forall is_entry l -> Forall (fun y => Normalization.comma_free y = true) l.
Proof. apply Forall_impl. now intros x (_ & _ & H). Qed.

Lemma parse_joined (l : list string) :
  l <> [] -> Forall is_entry l ->
  parse_comma_separated_list (Some (PyStr.join ", " l)) = Some l
  /\ parse_comma_separated_list (Some (PyStr.join "," l)) = Some l.
Proof.
  intros Hne H. destruct l as [|x xs]; [congruence|].
  pose proof (entries_comma_free _ H) as Hfree.
  assert (Hx : is_entry x) by now inversion H.
  assert (Hxs : Forall is_entry xs) by now inversion H.
  unfold parse_comma_separated_list, PyStr.join. split.
  - destruct (String.eqb (PyStr.strip (String.concat ", " (x :: xs))) "") eqn:E.
    + apply String.eqb_eq, strip_empty_iff in E.
      now rewrite (joined_not_blank ", " x xs Hx) in E.
    + rewrite (split_joined_with_space x xs Hfree).
      destruct Hx as (Hne' & Hs & _).
      cbn [filter]. rewrite Hs. destruct x; [congruence|].
      cbn [PyStr.nonempty map]. rewrite Hs.
      now rewrite (proj2 (entries_kept xs Hxs)).
  - destruct (String.eqb (PyStr.strip (String.concat "," (x :: xs))) "") eqn:E.
    + apply String.eqb_eq, strip_empty_iff in E.
      now rewrite (joined_not_blank "," x xs Hx) in E.
    + rewrite (split_joined x xs Hfree).
      now rewrite (proj1 (entries_kept (x :: xs) H)).
Qed.

(** X3. Normalization is stable under the way the handlers print a list:
    a non-empty normalized list, joined with a comma and a space as in the
    status messages, normalizes to itself; so does any non-empty list of
    entries joined with a comma and a space or with a comma alone. *)
Theorem parse_comma_separated_list_round_trip :
  (forall v l,
      parse_comma_separated_list (Some v) = Some l -> l <> [] ->
      parse_comma_separated_list (Some (PyStr.join ", " l)) = Some l)
  /\ (forall l,
         l <> [] -> Forall is_entry l ->
         parse_comma_separated_list (Some (PyStr.join ", " l)) = Some l
         /\ parse_comma_separated_list (Some (PyStr.join "," l)) = Some l).
Proof.
  split.
  - intros v l H Hne. exact (proj1 (parse_joined l Hne (parsed_entries v l H))).
  - exact parse_joined.
Qed.

Lemma parse_comma_separated_list_round_trip_witness :
  parse_comma_separated_list (Some " a@x.com ,, b c ,") = Some ["a@x.com"; "b c"]
  /\ parse_comma_separated_list (Some (PyStr.join ", " ["a@x.com"; "b c"]))
     = Some ["a@x.com"; "b c"].
Proof.
  split; [reflexivity|].
  refine (proj1 parse_comma_separated_list_round_trip
            " a@x.com ,, b c ," ["a@x.com"; "b c"] eq_refl _).
  discriminate.
Defined.

Lemma segments_blank (s : string) :
  forallb PyStr.all_space (PyStr.split "," s) = only_space_or_comma s.
Proof.
  induction s as [|c s IH]; [reflexivity|].
  cbn [only_space_or_comma]. destruct (Ascii.eqb c ",") eqn:Hc.
  - simpl. rewrite Hc. simpl. rewrite IH. now rewrite orb_true_r.
  - rewrite (split_other_char c s Hc), orb_false_r, <- IH.
    destruct (PyStr.split "," s) as [|seg segs] eqn:Hs.
    + now apply split_not_nil in Hs.
    + simpl. now rewrite andb_assoc.
Qed.

Lemma nothing_kept (segs : list string) :
  filter (fun item => PyStr.nonempty (PyStr.strip item)) segs = []
  <-> forallb PyStr.all_space segs = true.
Proof.
  induction segs as [|seg segs IH]; simpl; [tauto|].
  destruct (PyStr.all_space seg) eqn:Hb; simpl.
  - apply strip_empty_iff in Hb. rewrite Hb. simpl. exact IH.
  - destruct (PyStr.nonempty (PyStr.strip seg)) eqn:Hn.
    + split; discriminate.
    + apply nonempty_false, strip_empty_iff in Hn. congruence.
Qed.

(** The test [if l] on a normalized list fails exactly for an input of
    whitespace and commas only. *)
Lemma parse_falsy (v : string) :
  PyStr.truthy_list (parse_comma_separated_list (Some v)) = false
  <-> only_space_or_comma v = true.
Proof.
  rewrite <- segments_blank, <- nothing_kept.
  simpl. destruct (String.eqb (PyStr.strip v) "") eqn:E.
  - split; [intros _ | reflexivity].
    apply String.eqb_eq, strip_empty_iff in E.
    apply nothing_kept. rewrite segments_blank.
    clear -E. induction v as [|c v IH]; [reflexivity|].
    simpl in *. apply andb_true_iff in E as [Hc Hv]. now rewrite Hc, IH.
  - simpl.
    destruct (filter (fun item => PyStr.nonempty (PyStr.strip item)) (PyStr.split "," v));
      simpl; split; congruence.
Qed.

(** X4. The empty list, as opposed to absence, is what an input made of
    commas and whitespace with at least one comma normalizes to; absence is
    kept for the inputs that are whitespace throughout. Either way the test
    [if l] of the handlers fails exactly on the inputs made of whitespace and
    commas only. *)
Theorem parse_comma_separated_list_empty (v : string) :
  (parse_comma_separated_list (Some v) = Some []
   <-> only_space_or_comma v = true /\ PyStr.all_space v = false)
  /\ (parse_comma_separated_list (Some v) = None <-> PyStr.all_space v = true)
  /\ (PyStr.truthy_list (parse_comma_separated_list (Some v)) = false
      <-> only_space_or_comma v = true).
Proof.
  split; [| split; [| apply parse_falsy]].
  - split.
    + intros H. split.
      * apply parse_falsy. now rewrite H.
      * now apply parsed_list in H.
    + intros [Ho Hb]. apply parse_falsy in Ho.
      simpl in *. destruct (String.eqb (PyStr.strip v) "") eqn:E.
      * apply String.eqb_eq, strip_empty_iff in E. congruence.
      * destruct (map PyStr.strip _); [reflexivity | discriminate].
  - simpl. destruct (String.eqb (PyStr.strip v) "") eqn:E.
    + apply String.eqb_eq, strip_empty_iff in E. tauto.
    + split; [discriminate|]. intros H. apply strip_empty_iff in H.
      rewrite H in E. discriminate.
Qed.

(** ** The handlers as a whole *)





Ltac trace_goal :=
  unfold new_calls; cbn [calls world snd fst];
  rewrite ?skipn_length_self, ?skipn_length_app2, ?skipn_length_app;
  rewrite <- ?app_assoc, ?app_nil_r;
  cbn [app List.length map kind_of call raised kinds_of_tool firstn removelast In].

(** X7. The shape of the call trace. A handler only appends to the trace;
    the calls it makes are, in kind and order, an initial part of the calls
    listed for its tool, so no tool makes more than one call, reply two, and
    a tool that only reads never sends, modifies or deletes; only the last
    call made can have raised; a handler that makes no call leaves the world
    as it was. *)
Theorem handler_call_trace {World : Type} (V : Validation)
    (new_GmailService : TokenInfo.t -> GmailService World)
    (ctx : option Context) (t : Tool) (st : State World) :
  let st' := snd (run_tool V new_GmailService ctx t st) in
  let made := new_calls st st' in
  calls st' = (calls st ++ made)%list
  /\ map (fun ev => kind_of (call ev)) made
     = firstn (List.length made) (kinds_of_tool t)
  /\ List.length made <= (if is_reply t then 2 else 1)
  /\ (forall ev, In ev (removelast made) -> raised ev = None)
  /\ (made = [] -> world st' = world st).
Proof.
  intros st' made. subst made st'.
  destruct t; unfold_handlers; cbn [is_reply]; run_cases; trace_goal;
    (split; [reflexivity |
      split; [reflexivity |
        split; [repeat constructor |
          split; [intros ev H; repeat destruct H as [H|H]; subst; try reflexivity;
                  contradiction
                 | intros H; first [reflexivity | discriminate H]]]]]).
Qed.

Ltac pick_event H :=
  trace_in H;
  repeat match goal with
         | H : _ \/ _ |- _ => destruct H
         | H : False |- _ => destruct H
         end;
  subst.

(** X8. Every call a handler makes names the message, thread or draft the
    tool was invoked on, carries a request model whose constructor accepted
    the arguments, and is of a kind listed for the tool; in particular a
    message is deleted only by the delete tool, and only the one it was
    given. *)
Theorem handler_calls_on_target {World : Type} (V : Validation)
    (new_GmailService : TokenInfo.t -> GmailService World)
    (ctx : option Context) (t : Tool) (st : State World) (ev : CallEvent) :
  In ev (new_calls st (snd (run_tool V new_GmailService ctx t st))) ->
  (forall id, call_target (call ev) = Some id -> tool_target t = Some id)
  /\ accepted V (call ev)
  /\ In (kind_of (call ev)) (kinds_of_tool t)
  /\ (forall id, call ev = CallDeleteMessage id -> t = DeleteEmail id).
Proof.
  destruct t; unfold_handlers; run_cases; intros H; pick_event H;
    cbn [call call_target tool_target accepted kind_of kinds_of_tool In];
    (split; [intros id Hid; first [exact Hid | discriminate Hid] |
      split; [first [assumption | exact I] |
        split; [auto | intros id [=]; subst; reflexivity]]]).
Qed.

Lemma handler_calls_on_target_witness :
  In (mkCallEvent (CallDeleteMessage "m1") None)
     (new_calls Demo.start
        (snd (run_tool Demo.accept_all (Demo.service None true) Demo.ctx
                (DeleteEmail "m1") Demo.start)))
  /\ tool_target (DeleteEmail "m1") = Some "m1"
  /\ In Deletes (kinds_of_tool (DeleteEmail "m1")).
Proof.
  assert (H : In (mkCallEvent (CallDeleteMessage "m1") None)
                 (new_calls Demo.start
                    (snd (run_tool Demo.accept_all (Demo.service None true) Demo.ctx
                            (DeleteEmail "m1") Demo.start))))
    by (left; reflexivity).
  split; [exact H|].
  destruct (handler_calls_on_target Demo.accept_all (Demo.service None true) Demo.ctx
              (DeleteEmail "m1") Demo.start _ H) as (Htarget & _ & Hkind & _).
  split; [exact (Htarget "m1" eq_refl) | exact Hkind].
Defined.

(** X9. Logging follows the [except] branches and nothing else. Either the
    handler writes no line, and then an [error] field in its response can
    only be the missing-body validation answer; or it writes exactly one
    line, the one of its tool for the exception caught, and answers with
    the error of that exception (the 500 fault for send-email). *)
Theorem handler_logging {World : Type} (V : Validation)
    (new_GmailService : TokenInfo.t -> GmailService World)
    (ctx : option Context) (t : Tool) (st : State World) :
  let r := fst (run_tool V new_GmailService ctx t st) in
  let st' := snd (run_tool V new_GmailService ctx t st) in
  (logs st' = logs st
   /\ forall text, r = Return text ->
        Json.has_key "error" (payload text) = true ->
        bodies_missing t = true /\ text = missing_body)
  \/ (exists e,
         logs st' = (logs st ++ [error_log_line t e])%list
         /\ if is_send_email t
            then r = Raise (mkHTTPException 500%Z ("Failed to send email: " ++ e))
            else exists p, r = Return (dumps p (Some 2))
                           /\ Json.field "error" p = Some (JStr e)).
Proof.
  intros r st'. subst r st'.
  destruct t; unfold_handlers;
    cbn [is_send_email bodies_missing error_log_line]; run_cases;
    first
      [ left; split; [reflexivity|];
        intros text Hret Hk; inversion Hret; subst text; clear Hret;
        first [ split; reflexivity | vm_compute in Hk; discriminate Hk ]
      | right; eexists; split; [reflexivity|];
        first [ reflexivity | eexists; split; reflexivity ] ].
Qed.

(** X10. A response with [success: true] is given only after every call of
    the tool was made and returned: the trace has grown by all the calls
    listed for the tool, none of them raised, and nothing was logged. *)
Theorem success_after_calls_returned {World : Type} (V : Validation)
    (new_GmailService : TokenInfo.t -> GmailService World)
    (ctx : option Context) (t : Tool) (st : State World) :
  forall text,
    fst (run_tool V new_GmailService ctx t st) = Return text ->
    Json.field "success" (payload text) = Some (JBool true) ->
    let st' := snd (run_tool V new_GmailService ctx t st) in
    map (fun ev => kind_of (call ev)) (new_calls st st') = kinds_of_tool t
    /\ (forall ev, In ev (new_calls st st') -> raised ev = None)
    /\ logs st' = logs st
    /\ Json.has_key "error" (payload text) = false.
Proof.
  destruct t; unfold_handlers; run_cases;
    intros text Hret Hs; inversion Hret; subst text; clear Hret;
    vm_compute in Hs; try discriminate Hs;
    cbv zeta; trace_goal;
    (split; [reflexivity |
      split; [intros ev H; repeat destruct H as [H|H]; subst; try reflexivity;
              contradiction
             | split; reflexivity]]).
Qed.

Lemma success_after_calls_returned_witness :
  fst (run_tool Demo.accept_all (Demo.service (Some "Hello") true) Demo.ctx
         (ReplyToEmail "m1" (Some "hi") None false) Demo.start)
  = Return (dumps (JObj [("success", JBool true);
                         ("reply_message_id", JStr "m2");
                         ("original_message_id", JStr "m1");
                         ("message", JStr "Reply sent successfully")])
              (Some 2))
  /\ map (fun ev => kind_of (call ev))
       (new_calls Demo.start
          (snd (run_tool Demo.accept_all (Demo.service (Some "Hello") true) Demo.ctx
                  (ReplyToEmail "m1" (Some "hi") None false) Demo.start)))
     = [Reads; Sends].
Proof.
  split; [reflexivity|].
  exact (proj1 (success_after_calls_returned Demo.accept_all
                  (Demo.service (Some "Hello") true) Demo.ctx
                  (ReplyToEmail "m1" (Some "hi") None false) Demo.start
                  _ eq_refl eq_refl)).
Defined.



(** X12. A [count] in a response is the length of the array returned with
    it: the threads of thread-listing, the drafts of draft-listing, the
    attachments of the attachment listing. No other response carries a
    [count]. *)
Theorem count_is_array_length {World : Type} (V : Validation)
    (new_GmailService : TokenInfo.t -> GmailService World)
    (ctx : option Context) (t : Tool) (st : State World) :
  forall text c,
    fst (run_tool V new_GmailService ctx t st) = Return text ->
    Json.field "count" (payload text) = Some c ->
    exists key items,
      match t with
      | GetThreads _ _ _ _ _ _ _ => key = "threads"
      | GetDrafts _ _ _ _ _ _ => key = "drafts"
      | GetAttachments _ _ => key = "attachments"
      | _ => False
      end
      /\ Json.field key (payload text) = Some (JList items)
      /\ c = JInt (Z.of_nat (List.length items)).
Proof.
  destruct t; unfold_handlers; run_cases;
    intros text c Hret Hc; inversion Hret; subst text; clear Hret;
    cbn [payload missing_body error_envelope] in Hc |- *;
    try discriminate Hc;
    injection Hc as <-;
    eexists _, _; (split; [reflexivity | split; [reflexivity|]]);
    now rewrite length_map.
Qed.

Lemma count_is_array_length_witness :
  Json.field "count"
    (payload (dumps (JObj [("threads", JList [JObj [("id", JStr "t1")];
                                               JObj [("id", JStr "t2")];
                                               JObj [("id", JStr "t3")]]);
                           ("next_page_token", JStr "next");
                           ("result_size_estimate", JInt 3);
                           ("count", JInt 3)])
                (Some 2)))
  = Some (JInt 3)
  /\ exists key items,
       key = "threads"
       /\ Json.field key
            (payload (dumps (JObj [("threads", JList [JObj [("id", JStr "t1")];
                                                       JObj [("id", JStr "t2")];
                                                       JObj [("id", JStr "t3")]]);
                                   ("next_page_token", JStr "next");
                                   ("result_size_estimate", JInt 3);
                                   ("count", JInt 3)])
                        (Some 2)))
          = Some (JList items)
       /\ JInt 3 = JInt (Z.of_nat (List.length items)).
Proof.
  split; [reflexivity|].
  exact (count_is_array_length Demo.accept_all Cases.listing Demo.ctx
           (GetThreads 10 None None false None None None) Demo.start
           _ (JInt 3) eq_refl eq_refl).
Defined.

(** X13. A reply whose original message cannot be fetched sends nothing:
    when [get_message] raises, it is the only call made, the exception is
    logged and answered with the error envelope. *)
Theorem reply_needs_original {World : Type} (V : Validation)
    (new_GmailService : TokenInfo.t -> GmailService World)
    (ctx : option Context) (message_id : string) (body_text body_html : option string)
    (reply_all : bool) (st : State World) (token : string) (e : exn) (w : World) :
  get_access_token ctx = inr token ->
  PyStr.truthy body_text || PyStr.truthy body_html = true ->
  get_message _ (get_gmail_service new_GmailService token) message_id (world st)
  = (inl e, w) ->
  gmail_reply_to_email V new_GmailService ctx message_id body_text body_html reply_all st
  = (Return (error_envelope e),
     mkState w (calls st ++ [mkCallEvent (CallGetMessage message_id) (Some e)])
       (logs st ++ [("Error in reply_to_email: " ++ e)%string])).
Proof.
  intros Htok Hbody Hget.
  assert (Hif : negb (PyStr.truthy body_text) && negb (PyStr.truthy body_html) = false).
  { destruct (PyStr.truthy body_text), (PyStr.truthy body_html); simpl in *; congruence. }
  unfold gmail_reply_to_email, authorized, try_except, bind, await, logger_error.
  now rewrite Htok, Hif, Hget.
Qed.

Lemma reply_needs_original_witness :
  get_access_token Demo.ctx = inr "token"
  /\ gmail_reply_to_email Demo.accept_all Cases.unreadable Demo.ctx "m1"
       (Some "hi") None true Demo.start
     = (Return (error_envelope "not found"),
        mkState tt [mkCallEvent (CallGetMessage "m1") (Some "not found")]
          ["Error in reply_to_email: not found"]).
Proof.
  split; [reflexivity|].
  exact (reply_needs_original Demo.accept_all Cases.unreadable Demo.ctx "m1"
           (Some "hi") None true Demo.start "token" "not found" tt
           eq_refl eq_refl eq_refl).
Defined.

(** X14. A reply is threaded on the original: the request sent carries the
    thread id of the fetched message and the id of the message replied to,
    the two bodies as given, and no cc, bcc or attachment; it is sent on
    the world [get_message] left. *)
Theorem reply_is_threaded {World : Type} (V : Validation)
    (new_GmailService : TokenInfo.t -> GmailService World)
    (ctx : option Context) (message_id : string) (body_text body_html : option string)
    (st : State World) (token : string) (original : Message.t) (w : World) :
  get_access_token ctx = inr token ->
  PyStr.truthy body_text || PyStr.truthy body_html = true ->
  get_message _ (get_gmail_service new_GmailService token) message_id (world st)
  = (inr original, w) ->
  exists request,
    SendEmailRequest.thread_id request = Given (Message.thread_id original)
    /\ SendEmailRequest.in_reply_to request = Given (Some message_id)
    /\ SendEmailRequest.body_text request = body_text
    /\ SendEmailRequest.body_html request = body_html
    /\ SendEmailRequest.cc request = Omitted
    /\ SendEmailRequest.bcc request = Omitted
    /\ SendEmailRequest.attachments request = Omitted
    /\ (check_SendEmailRequest V request = None ->
        forall reply_all,
          let st' := snd (gmail_reply_to_email V new_GmailService ctx message_id
                            body_text body_html reply_all st) in
          world st'
          = snd (send_message _ (get_gmail_service new_GmailService token) request w)
          /\ exists r, new_calls st st'
                       = [mkCallEvent (CallGetMessage message_id) None;
                          mkCallEvent (CallSendMessage request) r]).
Proof.
  intros Htok Hbody Hget.
  eexists (SendEmailRequest.mk _ _ _ _ _ _ _ _ _).
  do 7 (split; [reflexivity|]).
  intros Hcheck reply_all st'. subst st'.
  rewrite (reply_outcome V new_GmailService ctx message_id body_text body_html
             reply_all st token original w Htok Hbody Hget).
  rewrite Hcheck.
  destruct (send_message _ _ _ w) as [[e|mid] w']; trace_goal; eauto.
Qed.

Lemma reply_is_threaded_witness :
  get_access_token Demo.ctx = inr "token"
  /\ exists request,
       SendEmailRequest.thread_id request = Given (Some "t1")
       /\ SendEmailRequest.in_reply_to request = Given (Some "m1")
       /\ exists r,
            new_calls Demo.start
              (snd (gmail_reply_to_email Demo.accept_all (Demo.service (Some "Hello") true)
                      Demo.ctx "m1" (Some "hi") None false Demo.start))
            = [mkCallEvent (CallGetMessage "m1") None;
               mkCallEvent (CallSendMessage request) r].
Proof.
  split; [reflexivity|].
  destruct (reply_is_threaded Demo.accept_all (Demo.service (Some "Hello") true)
              Demo.ctx "m1" (Some "hi") None Demo.start "token"
              (Demo.message (Some "Hello")) tt eq_refl eq_refl eq_refl)
    as (request & Hthread & Hreply & _ & _ & _ & _ & _ & Hsent).
  exists request. split; [exact Hthread | split; [exact Hreply|]].
  exact (proj2 (Hsent eq_refl false)).
Defined.

Lemma join_or_fallback (l : option (list string)) (fallback : string) :
  PyStr.truthy_list l = false -> join_or l fallback = fallback.
Proof. destruct l as [[|x xs]|]; simpl; congruence. Qed.

(** X15. Send-email does not check that there is a recipient. When [to]
    holds only whitespace and commas the recipient list of the request is
    absent or empty; if the request model accepts it the message is handed
    to the service client all the same, and a successful send is reported
    as sent to [recipients]. *)
Theorem send_email_without_recipient {World : Type} (V : Validation)
    (new_GmailService : TokenInfo.t -> GmailService World)
    (ctx : option Context) (to subject : string)
    (body_text body_html cc bcc attachments : option string)
    (st : State World) (token : string) :
  get_access_token ctx = inr token ->
  PyStr.truthy body_text || PyStr.truthy body_html = true ->
  only_space_or_comma to = true ->
  let request :=
    SendEmailRequest.mk (parse_comma_separated_list (Some to)) subject body_text body_html
      (Given (parse_comma_separated_list cc)) (Given (parse_comma_separated_list bcc))
      (Given (parse_comma_separated_list attachments)) Omitted Omitted in
  (SendEmailRequest.to request = None \/ SendEmailRequest.to request = Some [])
  /\ (check_SendEmailRequest V request = None ->
      forall message_id w,
        send_message _ (get_gmail_service new_GmailService token) request (world st)
        = (inr message_id, w) ->
        gmail_send_email V new_GmailService ctx to subject body_text body_html
          cc bcc attachments st
        = (Return (dumps (JObj [("success", JBool true);
                                ("message_id", JStr message_id);
                                ("message", JStr "Email sent successfully to recipients")])
                     (Some 2)),
           mkState w (calls st ++ [mkCallEvent (CallSendMessage request) None]) (logs st))).
Proof.
  intros Htok Hbody Hto request.
  apply parse_falsy in Hto.
  split.
  - unfold request. cbn [SendEmailRequest.to].
    destruct (parse_comma_separated_list (Some to)) as [[|x xs]|]; auto; discriminate.
  - intros Hcheck message_id w Hsend.
    assert (Hif : negb (PyStr.truthy body_text) && negb (PyStr.truthy body_html) = false).
    { destruct (PyStr.truthy body_text), (PyStr.truthy body_html); simpl in *; congruence. }
    unfold gmail_send_email, authorized, try_except, bind, await, construct, ret.
    rewrite Htok, Hif. fold request. rewrite Hcheck, Hsend.
    now rewrite (join_or_fallback _ _ Hto).
Qed.

Lemma send_email_without_recipient_witness :
  get_access_token Demo.ctx = inr "token"
  /\ only_space_or_comma " , ," = true
  /\ gmail_send_email Demo.accept_all (Demo.service None true) Demo.ctx
       " , ," "Hi" (Some "text") None None None None Demo.start
     = (Return (dumps (JObj [("success", JBool true);
                             ("message_id", JStr "m2");
                             ("message", JStr "Email sent successfully to recipients")])
                  (Some 2)),
        mkState tt
          [mkCallEvent
             (CallSendMessage
                (SendEmailRequest.mk (Some []) "Hi" (Some "text") None
                   (Given None) (Given None) (Given None) Omitted Omitted))
             None]
          []).
Proof.
  split; [reflexivity | split; [reflexivity|]].
  exact (proj2 (send_email_without_recipient Demo.accept_all (Demo.service None true)
                  Demo.ctx " , ," "Hi" (Some "text") None None None None Demo.start
                  "token" eq_refl eq_refl eq_refl)
           eq_refl "m2" tt eq_refl).
Defined.

(** X16. The label tools do not check that there is a label. When
    [label_ids] holds only whitespace and commas, add-label and remove-label
    still ask for a modification, with an absent or empty list, and a
    successful call is reported as [Labels none added successfully], resp.
    [removed]. *)
Theorem label_tools_without_label {World : Type} (V : Validation)
    (new_GmailService : TokenInfo.t -> GmailService World)
    (ctx : option Context) (message_id label_ids : string)
    (st : State World) (token : string) :
  get_access_token ctx = inr token ->
  only_space_or_comma label_ids = true ->
  let ids := parse_comma_separated_list (Some label_ids) in
  let gmail_service := get_gmail_service new_GmailService token in
  (ids = None \/ ids = Some [])
  /\ (forall updated w,
         check_ModifyLabelsRequest V (ModifyLabelsRequest.mk (Given ids) Omitted) = None ->
         modify_message_labels _ gmail_service message_id
           (ModifyLabelsRequest.mk (Given ids) Omitted) (world st)
         = (inr updated, w) ->
         exists added,
           (added = JNull \/ added = JList [])
           /\ fst (gmail_add_label V new_GmailService ctx message_id label_ids st)
              = Return (dumps (JObj [("success", JBool true);
                                     ("message_id", JStr message_id);
                                     ("added_labels", added);
                                     ("current_labels",
                                      Json.of_str_list (Message.label_ids updated));
                                     ("message", JStr "Labels none added successfully")])
                          (Some 2)))
  /\ (forall updated w,
         check_ModifyLabelsRequest V (ModifyLabelsRequest.mk Omitted (Given ids)) = None ->
         modify_message_labels _ gmail_service message_id
           (ModifyLabelsRequest.mk Omitted (Given ids)) (world st)
         = (inr updated, w) ->
         exists removed,
           (removed = JNull \/ removed = JList [])
           /\ fst (gmail_remove_label V new_GmailService ctx message_id label_ids st)
              = Return (dumps (JObj [("success", JBool true);
                                     ("message_id", JStr message_id);
                                     ("removed_labels", removed);
                                     ("current_labels",
                                      Json.of_str_list (Message.label_ids updated));
                                     ("message", JStr "Labels none removed successfully")])
                          (Some 2))).
Proof.
  intros Htok Hids ids gmail_service.
  apply parse_falsy in Hids. fold ids in Hids.
  assert (Hcases : ids = None \/ ids = Some []).
  { destruct ids as [[|x xs]|]; auto; discriminate. }
  split; [exact Hcases | split].
  - intros updated w Hcheck Hcall.
    unfold gmail_add_label, authorized, try_except, bind, await, construct, ret.
    rewrite Htok. fold ids gmail_service. rewrite Hcheck, Hcall.
    rewrite (join_or_fallback _ _ Hids). cbn [fst].
    eexists. split; [|reflexivity].
    destruct Hcases as [-> | ->]; [left | right]; reflexivity.
  - intros updated w Hcheck Hcall.
    unfold gmail_remove_label, authorized, try_except, bind, await, construct, ret.
    rewrite Htok. fold ids gmail_service. rewrite Hcheck, Hcall.
    rewrite (join_or_fallback _ _ Hids). cbn [fst].
    eexists. split; [|reflexivity].
    destruct Hcases as [-> | ->]; [left | right]; reflexivity.
Qed.

Lemma label_tools_without_label_witness :
  get_access_token Demo.ctx = inr "token"
  /\ only_space_or_comma "  " = true
  /\ exists added,
       (added = JNull \/ added = JList [])
       /\ fst (gmail_add_label Demo.accept_all (Demo.service None true) Demo.ctx
                 "m1" "  " Demo.start)
          = Return (dumps (JObj [("success", JBool true);
                                 ("message_id", JStr "m1");
                                 ("added_labels", added);
                                 ("current_labels", JList [JStr "INBOX"]);
                                 ("message", JStr "Labels none added successfully")])
                      (Some 2)).
Proof.
  split; [reflexivity | split; [reflexivity|]].
  exact (proj1 (proj2 (label_tools_without_label Demo.accept_all (Demo.service None true)
                         Demo.ctx "m1" "  " Demo.start "token" eq_refl eq_refl))
           (Demo.message None) tt eq_refl eq_refl).
Defined.

(** X17. Every JSON text a handler returns is written with indent 2, but
    for the missing-body validation answer, which is written on one
    line. *)
Theorem response_indent {World : Type} (V : Validation)
    (new_GmailService : TokenInfo.t -> GmailService World)
    (ctx : option Context) (t : Tool) (st : State World) :
  forall text,
    fst (run_tool V new_GmailService ctx t st) = Return text ->
    (indent text = Some 2 /\ text <> missing_body)
    \/ (text = missing_body /\ indent text = None /\ bodies_missing t = true).
Proof.
  destruct t; unfold_handlers; cbn [bodies_missing]; run_cases;
    intros text Hret; inversion Hret; subst text; clear Hret;
    first [ left; split; [reflexivity | discriminate]
          | right; repeat split; reflexivity ].
Qed.

Lemma response_indent_witness :
  fst (run_tool Demo.accept_all (Demo.service None true) Demo.ctx
         (SendDraft "d1") Demo.start)
  = Return (dumps (JObj [("success", JBool true);
                         ("message_id", JStr "m4");
                         ("draft_id", JStr "d1");
                         ("message", JStr "Draft sent successfully")])
              (Some 2))
  /\ ((Some 2 = Some 2
       /\ dumps (JObj [("success", JBool true);
                       ("message_id", JStr "m4");
                       ("draft_id", JStr "d1");
                       ("message", JStr "Draft sent successfully")])
            (Some 2)
          <> missing_body)
      \/ (dumps (JObj [("success", JBool true);
                       ("message_id", JStr "m4");
                       ("draft_id", JStr "d1");
                       ("message", JStr "Draft sent successfully")])
            (Some 2)
          = missing_body
          /\ Some 2 = None /\ false = true)).
Proof.
  split; [reflexivity|].
  exact (response_indent Demo.accept_all (Demo.service None true) Demo.ctx
           (SendDraft "d1") Demo.start _ eq_refl).
Defined.


